(** * XiLens camera database scraper: [examples/update_camera_database.py]

    A shallow embedding of the scraping script and the properties of its
    specification.

    Modelling conventions.
    - A Python [str] is a [string] whose characters are the code points
      below 256.  On this range [lower], [strip] and [split] are those of
      Python: the white space of [str.isspace] is 9-13, 28-32, 133 and
      160; comparison is by code point.
    - A Python [dict] is an association list in insertion order with unique
      keys ([wf]); assignment to an existing key keeps its position.
    - The HTML parser, the HTTP client, URL joining and the rich console
      are external: a parsed page is the answers BeautifulSoup gives to
      the queries the script makes, the web is a function from URLs to
      responses, [urljoin] and the rendering of a logged line are
      functions that may raise.
    - Exceptions are the [Raise] case of [result]; code with effects on the
      shared dictionary and on the console lives in the monad [M].
    - The console is one list of lines.  Lines written by different
      threads are listed per thread; their real interleaving is not
      modelled and no statement about a crawl depends on it. *)

From Stdlib Require Import String Ascii List Bool Arith Lia ZArith.
From Stdlib Require Import Sorting.Sorted Sorting.Permutation.
Import ListNotations.
Local Open Scope string_scope.
Local Open Scope list_scope.

(* ================================================================== *)
(** ** Python string primitives *)

Module PyStr.

(** [c.isspace()] for a code point below 256: TAB, LF, VT, FF, CR, FS,
    GS, RS, US, space, NEL (133) and the no-break space (160). *)
Definition is_space (c : ascii) : bool :=
  let n := nat_of_ascii c in
  (((9 <=? n) && (n <=? 13)) || ((28 <=? n) && (n <=? 32))
   || (n =? 133) || (n =? 160))%nat.

(** [c.lower()] for a code point below 256: [A-Z] and the capital
    letters 192-222 of Latin-1, the multiplication sign 215 apart. *)
Definition lower_char (c : ascii) : ascii :=
  let n := nat_of_ascii c in
  if (((65 <=? n) && (n <=? 90))
      || ((192 <=? n) && (n <=? 222) && negb (n =? 215)))%nat
  then ascii_of_nat (n + 32) else c.

(** [s.lower()] *)
Fixpoint lower (s : string) : string :=
  match s with
  | EmptyString => EmptyString
  | String c s' => String (lower_char c) (lower s')
  end.

(** [needle in hay] *)
Fixpoint contains (needle hay : string) : bool :=
  String.prefix needle hay ||
  match hay with
  | EmptyString => false
  | String _ hay' => contains needle hay'
  end.

(** [s.lstrip()] *)
Fixpoint lstrip (s : string) : string :=
  match s with
  | EmptyString => EmptyString
  | String c s' => if is_space c then lstrip s' else s
  end.

(** [s.rstrip()] *)
Fixpoint rstrip (s : string) : string :=
  match s with
  | EmptyString => EmptyString
  | String c s' =>
      match rstrip s' with
      | EmptyString => if is_space c then EmptyString else String c EmptyString
      | r => String c r
      end
  end.

(** [s.strip()] *)
Definition strip (s : string) : string := rstrip (lstrip s).

(** One token is kept only when it is not empty. *)
Definition push_token (tok : string) (rest : list string) : list string :=
  match tok with
  | EmptyString => rest
  | _ => tok :: rest
  end.

(** The token being read at the head of [s], and the tokens after it. *)
Fixpoint split_go (s : string) : string * list string :=
  match s with
  | EmptyString => (EmptyString, [])
  | String c s' =>
      let '(tok, rest) := split_go s' in
      if is_space c then (EmptyString, push_token tok rest)
      else (String c tok, rest)
  end.

(** [s.split()]: the maximal runs of characters that are not white space. *)
Definition split (s : string) : list string :=
  let '(tok, rest) := split_go s in push_token tok rest.

(** Truth value of a [str]: the empty string is false. *)
Definition truthy (s : string) : bool :=
  match s with
  | EmptyString => false
  | _ => true
  end.

End PyStr.

(* ================================================================== *)
(** ** Exceptions and results *)

(** The exceptions the script can meet: [requests.get] failing, the
    [HTTPError] of [raise_for_status], the [IndexError] of a list index,
    a failed [assert], the [ValueError] of [urljoin] and the
    [MarkupError] of the rich console.  The argument is the text
    [str(e)]. *)
Inductive exn : Type :=
| RequestException (msg : string)
| HTTPError (msg : string)
| IndexError (msg : string)
| AssertionError (msg : string)
| ValueError (msg : string)
| MarkupError (msg : string).

Definition str_exn (e : exn) : string :=
  match e with
  | RequestException m => m
  | HTTPError m => m
  | IndexError m => m
  | AssertionError m => m
  | ValueError m => m
  | MarkupError m => m
  end.

Inductive result (A : Type) : Type :=
| Ok (a : A)
| Raise (e : exn).
Arguments Ok {A} a.
Arguments Raise {A} e.

Definition rbind {A B} (r : result A) (k : A -> result B) : result B :=
  match r with
  | Ok a => k a
  | Raise e => Raise e
  end.

(** [l[i]] on a Python list, for [i >= 0]. *)
Definition list_index {A} (l : list A) (i : nat) : result A :=
  match nth_error l i with
  | Some a => Ok a
  | None => Raise (IndexError "list index out of range")
  end.

(** [l[-1]] *)
Definition list_last {A} (l : list A) : result A :=
  match rev l with
  | a :: _ => Ok a
  | [] => Raise (IndexError "list index out of range")
  end.

(* ================================================================== *)
(** ** Data model *)

(** The value stored for one part number (lines 173-178). *)
Record CatalogRecord : Type := mkRecord {
  cameraType : string;
  cameraFamily : string;
  mosaicWidth : Z;
  mosaicHeight : Z
}.

(** A dictionary from part numbers to records, in insertion order. *)
Definition dict : Type := list (string * CatalogRecord).

Definition keys (d : dict) : list string := map fst d.

Definition wf (d : dict) : Prop := NoDup (keys d).

(** [d[k] = v] *)
Fixpoint dict_set (k : string) (v : CatalogRecord) (d : dict) : dict :=
  match d with
  | [] => [(k, v)]
  | (k', v') :: d' =>
      if String.eqb k' k then (k, v) :: d' else (k', v') :: dict_set k v d'
  end.

(** [d.update(other)] *)
Definition update (d other : dict) : dict :=
  fold_left (fun acc kv => dict_set (fst kv) (snd kv) acc) other d.

(** [{k: v for k, v in items}] *)
Definition dict_of_items (items : list (string * CatalogRecord)) : dict :=
  update [] items.

(* ================================================================== *)
(** ** Parsed pages *)

(** A [<tr>] as the row loop sees it: the text of
    [row.find("span", class_="param_caption")] when there is such a span,
    and the texts of [row.find_all("td")]. *)
Record Row : Type := mkRow {
  caption_span : option string;
  tds : list string
}.

(** A [<div>] as the script queries it: the [href]s of
    [div.find_all('a', href=True)] and the rows of [div.find_all("tr")]. *)
Record Tag : Type := mkTag {
  hrefs : list string;
  trs : list Row
}.

(** A parsed document: [soup.find_all('div', class_=c)] and the texts of
    [soup.find_all("a", class_="pathway")]. *)
Record Soup : Type := mkSoup {
  find_all_div : string -> list Tag;
  pathways : list string
}.

(** What [requests.get] returns: [status_error] is the message of the
    [HTTPError] that [raise_for_status] raises for this response, absent
    for a success status; [content] is the parsed body. *)
Record Response : Type := mkResponse {
  status_error : option string;
  content : Soup
}.

Definition raise_for_status (r : Response) : result unit :=
  match status_error r with
  | Some m => Raise (HTTPError m)
  | None => Ok tt
  end.


(* ================================================================== *)
(** ** The monad of the script: shared dictionary, console, exceptions *)

(** [part_numbers_data] is the dictionary shared by all page tasks of one
    crawl; [console] collects the lines of [print] and [progress.log]. *)
Record Store : Type := mkStore {
  part_numbers_data : dict;
  console : list string
}.

Definition M (A : Type) : Type := Store -> Store * result A.

Definition ret {A} (a : A) : M A := fun s => (s, Ok a).

Definition bind {A B} (m : M A) (k : A -> M B) : M B :=
  fun s =>
    match m s with
    | (s', Ok a) => k a s'
    | (s', Raise e) => (s', Raise e)
    end.

Notation "x <- m ;; k" := (bind m (fun x => k))
  (at level 61, m at next level, right associativity).
Notation "m ;;; k" := (bind m (fun _ => k))
  (at level 61, right associativity).

(** A computation that touches neither the dictionary nor the console. *)
Definition lift {A} (r : result A) : M A := fun s => (s, r).

(** [print(msg)] *)
Definition print (msg : string) : M unit :=
  fun s => (mkStore (part_numbers_data s) (console s ++ [msg]), Ok tt).

(** [with lock: part_numbers_data.update(temp)] *)
Definition locked_update (temp : dict) : M unit :=
  fun s => (mkStore (update (part_numbers_data s) temp) (console s), Ok tt).

(** [try: m except Exception as e: handler(e)] *)
Definition try_except {A} (m : M A) (handler : exn -> M A) : M A :=
  fun s =>
    match m s with
    | (s', Raise e) => handler e s'
    | r => r
    end.

(** A task run as a future: its effects happen, its result or exception
    is kept in the future. *)
Definition attempt {A} (m : M A) : M (result A) :=
  fun s => let '(s', r) := m s in (s', Ok r).

(** [for x in l: body(x)] *)
Fixpoint for_each {A} (l : list A) (body : A -> M unit) : M unit :=
  match l with
  | [] => ret tt
  | x :: l' => body x ;;; for_each l' body
  end.

(** A loop that carries a local variable. *)
Fixpoint for_fold {A S} (l : list A) (body : A -> S -> M S) (acc : S) : M S :=
  match l with
  | [] => ret acc
  | x :: l' => acc' <- body x acc ;; for_fold l' body acc'
  end.

(* ================================================================== *)
(** ** The record extractor (lines 121-182) *)

(** The family tags of line 162. *)
Definition known_families : list string :=
  ["xiC"; "xiQ"; "xiSpec"; "xiX"; "xiB"; "xiB-64"; "xiRAY"].

(** [camera_family in [...]], where [camera_family] may be [None]. *)
Definition in_known_families (camera_family : option string) : bool :=
  match camera_family with
  | Some f => existsb (String.eqb f) known_families
  | None => false
  end.

(** [f"{x}"] for a value that is a [str] or [None]. *)
Definition fmt (x : option string) : string :=
  match x with
  | Some s => s
  | None => "None"
  end.

(** [if x:] for a value that is a [str] or [None]. *)
Definition truthy_opt (x : option string) : bool :=
  match x with
  | Some s => PyStr.truthy s
  | None => false
  end.

(** The body of the row loop (lines 143-155) on the pair
    [(part_number, chroma)].  A bs4 tag is always true, so the tests
    [if part_number_td:] and [if chroma_td:] always pass. *)
Definition row_body (row : Row) (st : option string * option string)
  : result (option string * option string) :=
  let '(part_number, chroma) := st in
  match caption_span row with
  | Some text =>
      if PyStr.contains "Part Number" text then
        rbind (list_index (tds row) 1)
              (fun part_number_td => Ok (Some (PyStr.strip part_number_td), chroma))
      else if PyStr.contains "Chroma" text then
        rbind (list_index (tds row) 1)
              (fun chroma_td => Ok (part_number, Some (PyStr.strip chroma_td)))
      else Ok st
  | None => Ok st
  end.

(** The row loop of one div (lines 137-155). *)
Fixpoint scan_rows (rows : list Row) (st : option string * option string)
  : result (option string * option string) :=
  match rows with
  | [] => Ok st
  | row :: rows' => rbind (row_body row st) (scan_rows rows')
  end.

(** Lines 158-161: the last token of the second pathway element. *)
Definition camera_family_of (soup : Soup) : result (option string) :=
  if (2 <=? length (pathways soup))%nat then
    rbind (list_index (pathways soup) 1)
          (fun p => rbind (list_last (PyStr.split p)) (fun tok => Ok (Some tok)))
  else Ok None.

(** Lines 166-172: the camera type of a chroma text, [None] for the final
    [else] branch. *)
Definition camera_type_of (chroma : string) : option string :=
  if PyStr.contains "color" (PyStr.lower chroma) then Some "rgb"
  else if PyStr.contains "monochrome" (PyStr.lower chroma)
          || PyStr.contains "nir" (PyStr.lower chroma) then Some "gray"
  else None.

(** The messages of lines 163 and 171. *)
Definition family_message (part_number : option string) : string :=
  ("Skipping camera family 'sensors' for camera: " ++ fmt part_number)%string.

Definition chroma_message (chroma part_number : option string) : string :=
  ("Skipping unknown chroma " ++ fmt chroma
   ++ " for camera: " ++ fmt part_number)%string.

Section Extractor.

(** The rich console of [progress]: the line it prints for a message, or
    the exception with which it rejects the message (rich reads the
    message as markup and raises [MarkupError] on a closing tag that
    closes nothing). *)
Variable render : string -> result string.

(** [progress.log(msg)] *)
Definition progress_log (msg : string) : M unit :=
  fun s =>
    match render msg with
    | Ok line => (mkStore (part_numbers_data s) (console s ++ [line]), Ok tt)
    | Raise e => (s, Raise e)
    end.

(** Lines 157-178: what happens to one div once its rows are scanned.
    Where [fmt] is applied to a value that passed a truth test or the
    family test, that value is a string and [fmt] returns it unchanged. *)
Definition filter_and_store (soup : Soup)
    (part_number chroma : option string) (temp : dict) : M dict :=
  camera_family <- lift (camera_family_of soup) ;;
  if negb (in_known_families camera_family) then
    progress_log (family_message part_number) ;;;
    ret temp
  else if truthy_opt part_number && truthy_opt chroma then
    match camera_type_of (fmt chroma) with
    | Some camera_type =>
        ret (dict_set (fmt part_number)
                      (mkRecord camera_type (fmt camera_family) 0 0) temp)
    | None =>
        progress_log (chroma_message chroma part_number) ;;;
        ret temp
    end
  else ret temp.

(** The body of the div loop (lines 137-178) on [temp_part_numbers_data]. *)
Definition div_body (soup : Soup) (div : Tag) (temp : dict) : M dict :=
  st <- lift (scan_rows (trs div) (None, None)) ;;
  filter_and_store soup (fst st) (snd st) temp.

(** The div loop, from an empty [temp_part_numbers_data]. *)
Definition collect (product_divs : list Tag) (soup : Soup) : M dict :=
  for_fold product_divs (div_body soup) [].

Definition extract_part_numbers_and_chroma
    (product_divs : list Tag) (soup : Soup) : M unit :=
  temp <- collect product_divs soup ;;
  locked_update temp.

End Extractor.

(* ================================================================== *)
(** ** Sorting (lines 205-216) *)

(** The sort key [(x[1]['cameraFamily'], x[0])] of line 214. *)
Definition sort_key (x : string * CatalogRecord) : string * string :=
  (cameraFamily (snd x), fst x).

(** [a < b] on pairs of strings: the first components decide unless they
    are equal. *)
Definition tuple_ltb (a b : string * string) : bool :=
  if String.eqb (fst a) (fst b) then String.ltb (snd a) (snd b)
  else String.ltb (fst a) (fst b).

(** [sorted(l, key=key)] is a stable sort that compares keys with [<]
    only.  [insert_by] puts [x], which stood before all of [l], in front
    of the first element whose key is not smaller. *)
Fixpoint insert_by {A} (key : A -> string * string) (x : A) (l : list A)
  : list A :=
  match l with
  | [] => [x]
  | y :: l' =>
      if tuple_ltb (key y) (key x) then y :: insert_by key x l'
      else x :: y :: l'
  end.

Definition sorted {A} (key : A -> string * string) (l : list A) : list A :=
  fold_right (insert_by key) [] l.

(** [a] may stand before [b] in a list sorted by [key]: the key of [b] is
    not smaller. *)
Definition key_le {A} (key : A -> string * string) (a b : A) : Prop :=
  tuple_ltb (key b) (key a) = false.

(** The order of the specification on entries: by family, then by part
    number, both compared as strings. *)
Definition family_part_le (a b : string * CatalogRecord) : Prop :=
  String.ltb (cameraFamily (snd a)) (cameraFamily (snd b)) = true \/
  (cameraFamily (snd a) = cameraFamily (snd b) /\
   String.leb (fst a) (fst b) = true).

Definition sort_by_family_and_part_number (part_numbers_data : dict) : dict :=
  let sorted_data := sorted sort_key part_numbers_data in
  dict_of_items sorted_data.


(* ================================================================== *)
(** ** The crawl (lines 34-118, 185-202) *)

(** A rearrangement of the futures of a pool. *)
Definition order : Type := forall A : Type, list A -> list A.

(** What the threads decide: [outer_order] is the order in which
    [as_completed] yields the category futures (line 99); for the product
    pool of the category link [c], [merge_order c] is the order in which
    the worker threads run their pages and take the lock, and
    [yield_order c] the order in which [as_completed] yields their
    futures to the main thread (line 109). *)
Record Schedule : Type := mkSchedule {
  outer_order : order;
  merge_order : string -> order;
  yield_order : string -> order
}.

(** Every submitted future runs and is yielded exactly once. *)
Definition complete (sch : Schedule) : Prop :=
  (forall A (l : list A), Permutation l (outer_order sch A l)) /\
  (forall c A (l : list A), Permutation l (merge_order sch c A l)) /\
  (forall c A (l : list A), Permutation l (yield_order sch c A l)).

(** Submission order is one possible order. *)
Definition in_order : Schedule :=
  mkSchedule (fun _ l => l) (fun _ _ l => l) (fun _ _ l => l).

(** [[link['href'] for div in divs for link in div.find_all('a', href=True)]] *)
Definition links_of (divs : list Tag) : list string := flat_map hrefs divs.

Section Crawl.

(** The web, URL joining, the rich console and the scheduler are given
    from outside.  [urljoin base url] is [urllib.parse.urljoin], which
    raises [ValueError] on some malformed URLs. *)
Variable requests_get : string -> result Response.
Variable urljoin : string -> string -> result string.
Variable render : string -> result string.
Variable sched : Schedule.

(** [requests.get], [raise_for_status], [BeautifulSoup(...)]
    (lines 43-45, 63-65 and 198-200). *)
Definition fetch_soup (url : string) : result Soup :=
  rbind (requests_get url) (fun response =>
  rbind (raise_for_status response) (fun _ =>
  Ok (content response))).

Definition fetch_main_categories (link_url : string) : result (list string) :=
  rbind (fetch_soup link_url) (fun soup =>
  let main_categories := find_all_div soup "subcategories_list_item_wrapper" in
  Ok (links_of main_categories)).

Definition fetch_subcategories (link_url subcategory_url : string)
  : result (list string) :=
  rbind (urljoin link_url subcategory_url) (fun subcategory_url =>
  rbind (fetch_soup subcategory_url) (fun soup =>
  let browse_blocks := find_all_div soup "browse-page-block" in
  Ok (links_of browse_blocks))).

Definition scrape_linked_page (link_url base_url : string) : M unit :=
  link_url <- lift (urljoin base_url link_url) ;;
  soup <- lift (fetch_soup link_url) ;;
  let product_divs := find_all_div soup "product-type" in
  extract_part_numbers_and_chroma render product_divs soup.

(** Lines 104-108: the main thread joins each product link to the base
    URL and submits it, one link after the other.  The result is the
    URLs submitted and, when a join raised, its exception: the links
    after it are not submitted. *)
Fixpoint submit_all (link_url : string) (subcategory_links : list string)
  : list string * option exn :=
  match subcategory_links with
  | [] => ([], None)
  | product_link :: rest =>
      match urljoin link_url product_link with
      | Raise e => ([], Some e)
      | Ok url =>
          let '(urls, failure) := submit_all link_url rest in
          (url :: urls, failure)
      end
  end.

(** The worker threads of a product pool: every submitted page is
    scraped, in the order given; the result of each future is kept. *)
Fixpoint run_pool (link_url : string) (urls : list string)
  : M (list (result unit)) :=
  match urls with
  | [] => ret []
  | url :: urls' =>
      r <- attempt (scrape_linked_page url link_url) ;;
      rs <- run_pool link_url urls' ;;
      ret (r :: rs)
  end.

(** Lines 110-113: the main thread takes the result of one product
    future. *)
Definition product_result (r : result unit) : M unit :=
  try_except (lift r)
    (fun e => print ("Error occurred while fetching product data: "
                     ++ str_exn e)%string).

(** Lines 100-115: the result of one category future and the product
    pool that is run on it.  When a join raises during submission, the
    [with] block still waits for the pages already submitted, their
    results are never asked for, and the exception reaches line 114. *)
Definition category_task (link_url link : string) : M unit :=
  try_except
    (subcategory_links <- lift (fetch_subcategories link_url link) ;;
     let '(submitted, failure) := submit_all link_url subcategory_links in
     results <- run_pool link_url (merge_order sched link _ submitted) ;;
     match failure with
     | Some e => lift (Raise e)
     | None => for_each (yield_order sched link _ results) product_result
     end)
    (fun e => print ("Error occurred while fetching subcategories: "
                     ++ str_exn e)%string).

(** The console output and the value returned or the exception raised.
    The progress bar is left out. *)
Definition fetch_part_numbers (link_url : string)
  : list string * result dict :=
  match fetch_main_categories link_url with
  | Raise e => ([], Raise e)
  | Ok main_category_links =>
      let run := for_each (outer_order sched _ main_category_links)
                          (category_task link_url) in
      match run (mkStore [] []) with
      | (s, Ok _) => (console s, Ok (part_numbers_data s))
      | (s, Raise e) => (console s, Raise e)
      end
  end.

(** Lines 244-248 of [scrap_page]: the dictionary that is written to
    [XiLensCameraProperties.json]. *)
Definition scrap_page (link_url : string) : list string * result dict :=
  let '(out, r) := fetch_part_numbers link_url in
  (out,
   rbind r (fun part_numbers_data_retrieved =>
   let part_numbers_data_retrieved :=
     sort_by_family_and_part_number part_numbers_data_retrieved in
   if (length (keys part_numbers_data_retrieved)
       =? length (nodup string_dec (keys part_numbers_data_retrieved)))%nat
   then Ok part_numbers_data_retrieved
   else Raise (AssertionError ""))).

End Crawl.

(* ================================================================== *)
(** ** The file commands (lines 219-237) *)

(** A JSON file of the output schema is the list of the members of its
    top-level object, in file order; a key may be repeated. *)
Definition json_members : Type := list (string * CatalogRecord).

(** [json.loads(text)]: the members are stored one after the other, so
    a repeated key keeps its first position and its last value. *)
Definition json_loads (text : json_members) : dict := dict_of_items text.

(** [json.dump(d, file)]: the members are written in dictionary order. *)
Definition json_dump (d : dict) : json_members := d.

(** [check_json_file]: the exception of the [assert] of line 224, or the
    two numbers printed by lines 225 and 226. *)
Definition check_json_file (text : json_members) : result (nat * nat) :=
  let content := json_loads text in
  if (length (keys content)
      =? length (nodup string_dec (keys content)))%nat
  then Ok (length (nodup string_dec (keys content)), length (keys content))
  else Raise (AssertionError "").

(** [sort_json_file]: what is written to [json_file_sorted.json]. *)
Definition sort_json_file (text : json_members) : json_members :=
  let content := json_loads text in
  let sorted_content := sort_by_family_and_part_number content in
  json_dump sorted_content.


(* ================================================================== *)
(** ** Vocabulary of the specification *)

(** Every entry of the output has a part number that is not empty and a
    family of the known set. *)
Definition valid_entry (e : string * CatalogRecord) : Prop :=
  fst e <> "" /\ In (cameraFamily (snd e)) known_families.


(** A row that the row loop can read: when its caption names the part
    number or the chroma, it has a second cell. *)
Definition readable_row (row : Row) : bool :=
  match caption_span row with
  | Some text =>
      if PyStr.contains "Part Number" text || PyStr.contains "Chroma" text
      then (2 <=? length (tds row))%nat
      else true
  | None => true
  end.

(** A breadcrumb that line 161 can read: its second element, when there
    is one, has at least one token. *)
Definition readable_breadcrumb (soup : Soup) : bool :=
  match pathways soup with
  | _ :: p :: _ =>
      match PyStr.split p with
      | [] => false
      | _ :: _ => true
      end
  | _ => true
  end.

(** A store before any page is merged and any line is printed. *)
Definition empty_store : Store := mkStore [] [].

(** The records the div loop collects on a page, or the exception that
    ends it. *)
Definition page_records (render : string -> result string) (soup : Soup)
  : result dict :=
  snd (collect render (find_all_div soup "product-type") soup empty_store).

(** The lines the div loop logs on a page. *)
Definition page_log (render : string -> result string) (soup : Soup)
  : list string :=
  console (fst (collect render (find_all_div soup "product-type") soup
                        empty_store)).

(** A computation that only appends lines to the console: its lines and
    its result are those of its run from the empty store. *)
Definition log_only {A} (m : M A) : Prop :=
  forall s,
    m s = (mkStore (part_numbers_data s)
                   (console s ++ console (fst (m empty_store))),
           snd (m empty_store)).

(** [d.get(k)] *)
Definition dict_get (k : string) (d : dict) : option CatalogRecord :=
  option_map snd (find (fun kv => String.eqb (fst kv) k) d).

(** The last value written under [k] in a sequence of writes. *)
Definition last_write (k : string) (writes : dict) : option CatalogRecord :=
  dict_get k (rev writes).

(** A row whose caption makes line 146 set the part number. *)
Definition is_part_number_row (row : Row) : bool :=
  match caption_span row with
  | Some text => PyStr.contains "Part Number" text
  | None => false
  end.

(** A row whose caption makes line 152 set the chroma: it names the
    chroma and not the part number. *)
Definition is_chroma_row (row : Row) : bool :=
  match caption_span row with
  | Some text =>
      negb (PyStr.contains "Part Number" text) && PyStr.contains "Chroma" text
  | None => false
  end.

(** The stripped text of the second cell of a row. *)
Definition value_cell (row : Row) : string :=
  PyStr.strip (nth 1 (tds row) "").

(** A text without white space, and a text of white space only. *)
Fixpoint no_space (s : string) : bool :=
  match s with
  | EmptyString => true
  | String c s' => negb (PyStr.is_space c) && no_space s'
  end.

Fixpoint all_space (s : string) : bool :=
  match s with
  | EmptyString => true
  | String c s' => PyStr.is_space c && all_space s'
  end.

(** The first character of a text is white space; the last one is. *)
Definition starts_with_space (s : string) : bool :=
  match s with
  | EmptyString => false
  | String c _ => PyStr.is_space c
  end.

Fixpoint ends_with_space (s : string) : bool :=
  match s with
  | EmptyString => false
  | String c EmptyString => PyStr.is_space c
  | String _ s' => ends_with_space s'
  end.

(** The fields the script fills in besides the family: a camera type
    that is rgb or gray and a mosaic of size zero. *)
Definition schema_entry (e : string * CatalogRecord) : Prop :=
  (cameraType (snd e) = "rgb" \/ cameraType (snd e) = "gray") /\
  mosaicWidth (snd e) = 0%Z /\ mosaicHeight (snd e) = 0%Z.

(** [value] is [text] without the white space at its two ends. *)
Definition stripped_of (text value : string) : Prop :=
  (exists a b, text = (a ++ value ++ b)%string /\
               all_space a = true /\ all_space b = true) /\
  starts_with_space value = false /\ ends_with_space value = false.

(** A part number without white space at either end. *)
Definition stripped_entry (e : string * CatalogRecord) : Prop :=
  starts_with_space (fst e) = false /\ ends_with_space (fst e) = false.

(** A message that the rich console prints. *)
Definition renders (render : string -> result string) (msg : string) : Prop :=
  exists line, render msg = Ok line.

(* ================================================================== *)
(** ** What a crawl writes and prints *)

Section CrawlSummary.

Variable requests_get : string -> result Response.
Variable urljoin : string -> string -> result string.
Variable render : string -> result string.
Variable sched : Schedule.

(** The page a worker parses for a submitted URL: the URL is joined
    again in [scrape_linked_page] (line 197), then fetched. *)
Definition worker_soup (link_url url : string) : result Soup :=
  rbind (urljoin link_url url) (fetch_soup requests_get).

(** The result kept in the future of a submitted URL. *)
Definition worker_result (link_url url : string) : result unit :=
  rbind (worker_soup link_url url) (fun soup =>
  rbind (page_records render soup) (fun _ => Ok tt)).

(** The items the worker merges into the shared dictionary: the records
    of its page, nothing when the join, the fetch or the extraction
    raised. *)
Definition worker_writes (link_url url : string) : dict :=
  match worker_soup link_url url with
  | Ok soup =>
      match page_records render soup with
      | Ok temp => temp
      | Raise _ => []
      end
  | Raise _ => []
  end.

(** The lines the worker logs. *)
Definition worker_lines (link_url url : string) : list string :=
  match worker_soup link_url url with
  | Ok soup => page_log render soup
  | Raise _ => []
  end.

(** The line of line 113 and the line of line 115. *)
Definition product_error_line (e : exn) : string :=
  ("Error occurred while fetching product data: " ++ str_exn e)%string.

Definition category_error_line (e : exn) : string :=
  ("Error occurred while fetching subcategories: " ++ str_exn e)%string.

(** The lines the main thread prints for the results of a pool. *)
Definition error_lines (results : list (result unit)) : list string :=
  flat_map (fun r => match r with
                     | Ok _ => []
                     | Raise e => [product_error_line e]
                     end) results.

(** The URLs the workers of a category scrape, in the order in which
    they take the lock. *)
Definition scraped_urls (link_url link : string) : list string :=
  match fetch_subcategories requests_get urljoin link_url link with
  | Ok subcategory_links =>
      merge_order sched link _ (fst (submit_all urljoin link_url subcategory_links))
  | Raise _ => []
  end.

(** The items merged and the lines printed for one category link. *)
Definition category_writes (link_url link : string) : dict :=
  flat_map (worker_writes link_url) (scraped_urls link_url link).

Definition category_lines (link_url link : string) : list string :=
  match fetch_subcategories requests_get urljoin link_url link with
  | Ok subcategory_links =>
      flat_map (worker_lines link_url) (scraped_urls link_url link) ++
      match snd (submit_all urljoin link_url subcategory_links) with
      | Some e => [category_error_line e]
      | None =>
          error_lines
            (yield_order sched link _
               (map (worker_result link_url) (scraped_urls link_url link)))
      end
  | Raise e => [category_error_line e]
  end.

(** The items merged and the lines printed by a whole crawl. *)
Definition crawl_writes (link_url : string) (main_category_links : list string)
  : dict :=
  flat_map (category_writes link_url) (outer_order sched _ main_category_links).

Definition crawl_lines (link_url : string) (main_category_links : list string)
  : list string :=
  flat_map (category_lines link_url) (outer_order sched _ main_category_links).

End CrawlSummary.

(* ================================================================== *)
(** ** Sample pages *)

(** [<tr><td><span class="param_caption">label</span></td><td>value</td></tr>] *)
Definition param_row (label value : string) : Row :=
  mkRow (Some label) [label; value].

(** A product-type div with a part number row and a chroma row. *)
Definition product_div (part_number chroma : string) : Tag :=
  mkTag [] [param_row "Part Number" part_number; param_row "Chroma" chroma].

(** A page with the given breadcrumb and product-type divs. *)
Definition product_page (breadcrumb : list string) (divs : list Tag) : Soup :=
  mkSoup (fun c => if String.eqb c "product-type" then divs else []) breadcrumb.

(** A div whose part number row has lost its value cell. *)
Definition short_row_div : Tag :=
  mkTag [] [mkRow (Some "Part Number") ["Part Number"]].

(** What [extract_part_numbers_and_chroma] leaves in an empty shared
    dictionary for a page of one product div. *)
Definition extracted (render : string -> result string)
    (breadcrumb : list string) (part_number chroma : string)
  : dict * result unit :=
  let soup := product_page breadcrumb [product_div part_number chroma] in
  let '(s, r) := extract_part_numbers_and_chroma render
                   (find_all_div soup "product-type") soup empty_store in
  (part_numbers_data s, r).

(** A listing page: one div of class [cls] with the given links. *)
Definition listing (cls : string) (links : list string) : Soup :=
  mkSoup (fun c => if String.eqb c cls then [mkTag links []] else []) [].

(** A product page of one camera. *)
Definition camera_page (breadcrumb part_number chroma : string) : Soup :=
  product_page ["Home"; breadcrumb] [product_div part_number chroma].

(** A small site: two categories, one of which answers 404; five product
    pages under the other, one of which cannot be fetched. *)
Definition sample_web (url : string) : result Response :=
  if String.eqb url "/products" then
    Ok (mkResponse None
          (listing "subcategories_list_item_wrapper" ["/usb3"; "/pcie"]))
  else if String.eqb url "/usb3" then
    Ok (mkResponse None
          (listing "browse-page-block" ["/p1"; "/p2"; "/p3"; "/p4"; "/p5"]))
  else if String.eqb url "/pcie" then
    Ok (mkResponse (Some "404 Client Error: Not Found")
          (listing "browse-page-block" []))
  else if String.eqb url "/p1" then
    Ok (mkResponse None (camera_page "USB3 cameras xiQ" "MQ013CG-E2" "Color"))
  else if String.eqb url "/p2" then
    Ok (mkResponse None (camera_page "USB3 cameras xiQ" "MQ013MG-E2" "Monochrome"))
  else if String.eqb url "/p3" then
    Raise (RequestException "Connection refused")
  else if String.eqb url "/p4" then
    Ok (mkResponse None (camera_page "USB3 cameras xiC" "MC023CG-SY" "Color"))
  else if String.eqb url "/p5" then
    Ok (mkResponse None (camera_page "PCIe cameras xiB" "CB120RG-CM" "NIR enhanced"))
  else Raise (RequestException "Name or service not known").


(** The links of the sample sites are absolute paths; the join of
    ["http://[bad"] raises as [urllib.parse.urljoin] does. *)
Definition sample_urljoin (base href : string) : result string :=
  if String.eqb href "http://[bad" then Raise (ValueError "Invalid IPv6 URL")
  else Ok href.

(** A console that prints every message as it is. *)
Definition plain_render (msg : string) : result string := Ok msg.

(** A console that rejects every message that holds the opening of a
    closing tag, as rich does for a closing tag that closes nothing. *)
Definition strict_render (msg : string) : result string :=
  if PyStr.contains "[/" msg
  then Raise (MarkupError "closing tag doesn't match any open tag")
  else Ok msg.

(** A web that is down. *)
Definition dead_web (url : string) : result Response :=
  Raise (RequestException "Connection refused").

(** What the crawl of the sample site returns and prints. *)
Definition sample_result : dict :=
  [("MQ013CG-E2", mkRecord "rgb" "xiQ" 0 0);
   ("MQ013MG-E2", mkRecord "gray" "xiQ" 0 0);
   ("MC023CG-SY", mkRecord "rgb" "xiC" 0 0);
   ("CB120RG-CM", mkRecord "gray" "xiB" 0 0)].

Definition sample_console : list string :=
  ["Error occurred while fetching product data: Connection refused";
   "Error occurred while fetching subcategories: 404 Client Error: Not Found"].

(** A catalog with two xiB entries and one xiC entry, not yet sorted. *)
Definition sample_catalog : dict :=
  [("MC023CG-SY", mkRecord "rgb" "xiC" 0 0);
   ("CB200MG-CM", mkRecord "gray" "xiB" 0 0);
   ("CB120RG-CM", mkRecord "gray" "xiB" 0 0)].

(** Everything in the reverse of submission order. *)
Definition reversed : Schedule :=
  mkSchedule (fun _ l => rev l) (fun _ _ l => rev l) (fun _ _ l => rev l).

(** A page whose second product div has lost a value cell. *)
Definition damaged_page : Soup :=
  product_page ["Home"; "USB3 cameras xiQ"]
               [product_div "MQ013CG-E2" "Color"; short_row_div].

(** A file that repeats a key. *)
Definition sample_file : json_members :=
  [("MQ013CG-E2", mkRecord "rgb" "xiQ" 0 0);
   ("CB120RG-CM", mkRecord "gray" "xiB" 0 0);
   ("MQ013CG-E2", mkRecord "gray" "xiQ" 0 0)].

(* ================================================================== *)
(** * Properties *)

(** ** Order on strings and on sort keys *)

Section KeyOrder.

Lemma compare_refl (s : string) : String.compare s s = Eq.
Proof.
  induction s as [|c s IH]; simpl; trivial.
  unfold Ascii.compare. now rewrite N.compare_refl.
Qed.

Lemma compare_eq (s t : string) : String.compare s t = Eq <-> s = t.
Proof.
  split; [apply String.compare_eq_iff | intros ->; apply compare_refl].
Qed.

Lemma compare_lt_trans (a b c : string) :
  String.compare a b = Lt -> String.compare b c = Lt ->
  String.compare a c = Lt.
Proof.
  revert b c.
  induction a as [|x a IH]; intros [|y b] [|z c]; simpl; try easy.
  unfold Ascii.compare.
  destruct (N.compare_spec (N_of_ascii x) (N_of_ascii y)) as [Exy|Lxy|Gxy];
    destruct (N.compare_spec (N_of_ascii y) (N_of_ascii z)) as [Eyz|Lyz|Gyz];
    try easy; intros Hab Hbc.
  - rewrite Exy, Eyz, N.compare_refl. eauto.
  - rewrite Exy. now apply N.compare_lt_iff in Lyz as ->.
  - rewrite <- Eyz. now apply N.compare_lt_iff in Lxy as ->.
  - assert (H : (N_of_ascii x < N_of_ascii z)%N) by lia.
    now apply N.compare_lt_iff in H as ->.
Qed.

Lemma ltb_lt (s t : string) : String.ltb s t = true <-> String.compare s t = Lt.
Proof. unfold String.ltb. destruct (String.compare s t); easy. Qed.

Lemma ltb_irrefl (s : string) : String.ltb s s = false.
Proof. unfold String.ltb. now rewrite compare_refl. Qed.

Lemma ltb_trans (a b c : string) :
  String.ltb a b = true -> String.ltb b c = true -> String.ltb a c = true.
Proof. rewrite !ltb_lt. apply compare_lt_trans. Qed.

Lemma ltb_trichotomy (s t : string) :
  String.ltb s t = true \/ s = t \/ String.ltb t s = true.
Proof.
  unfold String.ltb. rewrite (String.compare_antisym t s).
  destruct (String.compare s t) eqn:E; simpl; auto.
  apply compare_eq in E. auto.
Qed.

Lemma tuple_ltb_irrefl (a : string * string) : tuple_ltb a a = false.
Proof. unfold tuple_ltb. rewrite String.eqb_refl. apply ltb_irrefl. Qed.

Lemma tuple_ltb_trans (a b c : string * string) :
  tuple_ltb a b = true -> tuple_ltb b c = true -> tuple_ltb a c = true.
Proof.
  destruct a as [a1 a2], b as [b1 b2], c as [c1 c2]. unfold tuple_ltb; simpl.
  destruct (String.eqb_spec a1 b1) as [->|Nab];
    destruct (String.eqb_spec b1 c1) as [->|Nbc].
  - apply ltb_trans.
  - auto.
  - apply String.eqb_neq in Nab as ->. auto.
  - intros Hab Hbc. pose proof (ltb_trans _ _ _ Hab Hbc) as Hac.
    destruct (String.eqb_spec a1 c1) as [->|_]; trivial.
    now rewrite ltb_irrefl in Hac.
Qed.

Lemma tuple_ltb_trichotomy (a b : string * string) :
  tuple_ltb a b = true \/ a = b \/ tuple_ltb b a = true.
Proof.
  destruct a as [a1 a2], b as [b1 b2]. unfold tuple_ltb; simpl.
  destruct (String.eqb_spec a1 b1) as [->|N].
  - rewrite String.eqb_refl.
    destruct (ltb_trichotomy a2 b2) as [H|[->|H]]; auto.
  - assert (N' : b1 <> a1) by congruence.
    apply String.eqb_neq in N' as ->.
    destruct (ltb_trichotomy a1 b1) as [H|[H|H]]; auto.
Qed.

(** "Not smaller" is transitive. *)
Lemma tuple_geb_trans (a b c : string * string) :
  tuple_ltb b a = false -> tuple_ltb c b = false -> tuple_ltb c a = false.
Proof.
  intros Hba Hcb. destruct (tuple_ltb c a) eqn:Hca; trivial.
  destruct (tuple_ltb_trichotomy a b) as [H|[->|H]]; try congruence.
  rewrite (tuple_ltb_trans _ _ _ Hca H) in Hcb. discriminate.
Qed.

End KeyOrder.

(** ** The stable sort *)

Section SortFacts.

Context {A : Type} (key : A -> string * string).

Lemma key_le_trans (a b c : A) : key_le key a b -> key_le key b c -> key_le key a c.
Proof. unfold key_le. intros Hab Hbc. eapply tuple_geb_trans; eauto. Qed.

Lemma key_lt_le (a b : A) : tuple_ltb (key a) (key b) = true -> key_le key a b.
Proof.
  unfold key_le. intros Hab. destruct (tuple_ltb (key b) (key a)) eqn:Hba; trivial.
  pose proof (tuple_ltb_trans _ _ _ Hab Hba) as H.
  now rewrite tuple_ltb_irrefl in H.
Qed.

Lemma insert_by_perm (x : A) (l : list A) :
  Permutation (x :: l) (insert_by key x l).
Proof.
  induction l as [|y l IH]; simpl; [reflexivity|].
  destruct (tuple_ltb (key y) (key x)); [|reflexivity].
  rewrite perm_swap. now constructor.
Qed.

Lemma sorted_perm (l : list A) : Permutation l (sorted key l).
Proof.
  induction l as [|x l IH]; simpl; [constructor|].
  rewrite <- insert_by_perm. now constructor.
Qed.

Lemma insert_by_sorted (x : A) (l : list A) :
  StronglySorted (key_le key) l -> StronglySorted (key_le key) (insert_by key x l).
Proof.
  induction 1 as [|y l Hs IH Hy]; simpl.
  - repeat constructor.
  - destruct (tuple_ltb (key y) (key x)) eqn:E.
    + constructor; trivial.
      rewrite <- insert_by_perm. constructor; [now apply key_lt_le | trivial].
    + constructor; [now constructor|].
      constructor; [exact E|].
      eapply Forall_impl; [|exact Hy]. intros z Hz.
      eapply key_le_trans; [exact E | exact Hz].
Qed.

Lemma sorted_sorted (l : list A) : StronglySorted (key_le key) (sorted key l).
Proof.
  induction l as [|x l IH]; simpl; [constructor | now apply insert_by_sorted].
Qed.

(** Sorting leaves a sorted list as it is. *)
Lemma sorted_id (l : list A) : StronglySorted (key_le key) l -> sorted key l = l.
Proof.
  induction 1 as [|x l Hs IH Hx]; simpl; trivial.
  rewrite IH. destruct l as [|y l]; simpl; trivial.
  inversion Hx as [|? ? Hxy _]; subst. unfold key_le in Hxy. now rewrite Hxy.
Qed.

Lemma StronglySorted_nth (R : A -> A -> Prop) (l : list A) :
  StronglySorted R l ->
  forall i j a b, i < j ->
    nth_error l i = Some a -> nth_error l j = Some b -> R a b.
Proof.
  induction 1 as [|x l Hs IH Hx]; intros i j a b Hij Hi Hj.
  - now destruct i.
  - destruct j as [|j]; [lia|]. simpl in Hj.
    destruct i as [|i]; simpl in Hi.
    + injection Hi as <-. rewrite Forall_forall in Hx.
      eapply Hx, nth_error_In; eauto.
    + eapply (IH i j); eauto. lia.
Qed.

End SortFacts.

(** ** Dictionaries *)

Section DictFacts.

Lemma dict_set_fresh (k : string) (v : CatalogRecord) (d : dict) :
  ~ In k (keys d) -> dict_set k v d = d ++ [(k, v)].
Proof.
  induction d as [|[k' v'] d IH]; simpl; intros Hk; trivial.
  destruct (String.eqb_spec k' k) as [->|_]; [tauto|].
  rewrite IH; tauto.
Qed.

Lemma update_fresh (other d : dict) :
  NoDup (keys (d ++ other)) -> update d other = d ++ other.
Proof.
  unfold update. revert d.
  induction other as [|[k v] other IH]; intros d Hnd; simpl.
  - now rewrite app_nil_r.
  - assert (Hd : d ++ (k, v) :: other = (d ++ [(k, v)]) ++ other)
      by now rewrite <- app_assoc.
    rewrite Hd in Hnd |- *.
    rewrite dict_set_fresh; [now apply IH|].
    unfold keys in Hnd. rewrite !map_app in Hnd. simpl in Hnd.
    apply NoDup_app_remove_r in Hnd.
    apply NoDup_remove_2 in Hnd. now rewrite app_nil_r in Hnd.
Qed.

(** A list of items with distinct keys is its own dictionary. *)
Lemma dict_of_items_wf (items : dict) : wf items -> dict_of_items items = items.
Proof. intros H. unfold dict_of_items. now rewrite update_fresh. Qed.

Lemma sorted_wf (d : dict) : wf d -> wf (sorted sort_key d).
Proof.
  unfold wf, keys. intros H.
  eapply Permutation_NoDup; [|exact H].
  apply Permutation_map, sorted_perm.
Qed.

Lemma sort_by_family_and_part_number_eq (d : dict) :
  wf d -> sort_by_family_and_part_number d = sorted sort_key d.
Proof.
  intros H. unfold sort_by_family_and_part_number.
  now apply dict_of_items_wf, sorted_wf.
Qed.

End DictFacts.

(** ** The sorter *)

Lemma key_le_family_part (a b : string * CatalogRecord) :
  key_le sort_key a b -> family_part_le a b.
Proof.
  unfold key_le, family_part_le. intros Hba.
  destruct (tuple_ltb_trichotomy (sort_key a) (sort_key b)) as [H|[H|H]];
    [| |congruence].
  - revert H. unfold tuple_ltb, sort_key; simpl.
    destruct (String.eqb_spec (cameraFamily (snd a)) (cameraFamily (snd b)))
      as [E|_]; auto.
    intros H. right. split; trivial.
    unfold String.ltb in H. unfold String.leb.
    now destruct (String.compare (fst a) (fst b)).
  - injection H as Hf Hp. right. split; trivial.
    unfold String.leb. now rewrite Hp, compare_refl.
Qed.

Lemma sort_sorted (d : dict) :
  wf d -> StronglySorted family_part_le (sort_by_family_and_part_number d).
Proof.
  intros H. rewrite sort_by_family_and_part_number_eq by trivial.
  pose proof (sorted_sorted sort_key d) as Hs.
  induction Hs as [|x l Hs IH Hx]; constructor; trivial.
  eapply Forall_impl; [|exact Hx]. intros y. apply key_le_family_part.
Qed.

(** C6: for a dictionary [d], [sort_by_family_and_part_number d] holds
    exactly the entries of [d] (a permutation: none added, removed or
    changed), every entry is followed only by entries that are not smaller
    in the order by family and then by part number, so all entries of
    family xiB stand before all entries of family xiC, and within one
    family the part numbers increase. *)
Theorem sort_by_family_and_part_number_spec (d : dict) :
  wf d ->
  let out := sort_by_family_and_part_number d in
  Permutation d out /\
  StronglySorted family_part_le out /\
  (forall i j a b,
      nth_error out i = Some a -> nth_error out j = Some b ->
      cameraFamily (snd a) = "xiB" -> cameraFamily (snd b) = "xiC" ->
      i < j) /\
  (forall i j a b,
      nth_error out i = Some a -> nth_error out j = Some b -> i < j ->
      cameraFamily (snd a) = cameraFamily (snd b) ->
      String.leb (fst a) (fst b) = true).
Proof.
  intros Hwf out.
  assert (Hs : StronglySorted family_part_le out) by now apply sort_sorted.
  split; [|split; [exact Hs|split]].
  - subst out. rewrite sort_by_family_and_part_number_eq by trivial.
    apply sorted_perm.
  - intros i j a b Hi Hj Ha Hb.
    destruct (Nat.lt_trichotomy i j) as [Hlt|[->|Hgt]]; trivial.
    + rewrite Hi in Hj. injection Hj as ->. rewrite Ha in Hb. discriminate.
    + pose proof (StronglySorted_nth _ _ Hs j i b a Hgt Hj Hi) as Hle.
      unfold family_part_le in Hle. rewrite Ha, Hb in Hle.
      destruct Hle as [Hle|[Hle _]]; discriminate.
  - intros i j a b Hi Hj Hij Hfam.
    pose proof (StronglySorted_nth _ _ Hs i j a b Hij Hi Hj) as Hle.
    unfold family_part_le in Hle. rewrite Hfam, ltb_irrefl in Hle.
    destruct Hle as [Hle|[_ Hle]]; [discriminate | exact Hle].
Qed.

(** C7: sorting the output of [sort_by_family_and_part_number] again
    gives the same entries in the same order. *)
Theorem sort_by_family_and_part_number_idempotent (d : dict) :
  wf d ->
  sort_by_family_and_part_number (sort_by_family_and_part_number d)
  = sort_by_family_and_part_number d.
Proof.
  intros Hwf.
  rewrite (sort_by_family_and_part_number_eq d) by trivial.
  rewrite sort_by_family_and_part_number_eq by now apply sorted_wf.
  apply sorted_id, sorted_sorted.
Qed.

(** ** Strings *)

Section StringFacts.

Import PyStr.






Lemma truthy_nonempty (s : string) : truthy s = true <-> s <> "".
Proof. destruct s; simpl; split; congruence. Qed.

End StringFacts.


(** ** The row loop *)

(** The row loop returns when every labelled row has its value cell. *)
Lemma scan_rows_returns (rows : list Row) :
  forallb readable_row rows = true ->
  forall st, exists st', scan_rows rows st = Ok st'.
Proof.
  induction rows as [|row rows IH]; simpl; intros Hr st; [eauto|].
  apply andb_prop in Hr as [Hrow Hrows].
  assert (Hb : exists st1, row_body row st = Ok st1).
  { unfold row_body, readable_row in *. destruct st as [pn ch].
    destruct (caption_span row) as [text|]; [|eauto].
    destruct (PyStr.contains "Part Number" text),
             (PyStr.contains "Chroma" text); cbn [orb] in Hrow; eauto;
      apply Nat.leb_le in Hrow; unfold list_index;
      destruct (nth_error (tds row) 1) eqn:E; simpl; eauto;
      apply nth_error_None in E; lia. }
  destruct Hb as [st1 ->]. simpl. apply IH, Hrows.
Qed.

Lemma camera_family_of_returns (soup : Soup) :
  readable_breadcrumb soup = true -> exists fam, camera_family_of soup = Ok fam.
Proof.
  unfold readable_breadcrumb, camera_family_of, list_index, list_last.
  destruct (pathways soup) as [|p0 [|p ps]]; simpl; eauto.
  destruct (PyStr.split p) as [|t ts] eqn:E; [discriminate|]. intros _.
  destruct (rev (t :: ts)) as [|x xs] eqn:R; simpl; eauto.
  apply (f_equal (@length string)) in R. rewrite length_rev in R. discriminate.
Qed.

Lemma find_snoc {A} (p : A -> bool) (l : list A) (x : A) :
  find p (l ++ [x])
  = match find p l with
    | Some y => Some y
    | None => if p x then Some x else None
    end.
Proof.
  induction l as [|y l IH]; simpl; trivial. now destruct (p y).
Qed.

Lemma row_body_result (row : Row) (st st' : option string * option string) :
  row_body row st = Ok st' ->
  fst st' = (if is_part_number_row row then Some (value_cell row) else fst st) /\
  snd st' = (if is_chroma_row row then Some (value_cell row) else snd st).
Proof.
  unfold row_body, is_part_number_row, is_chroma_row, value_cell, list_index.
  pose proof (fun td => nth_error_nth (tds row) 1 (x:=td) "") as Hn.
  destruct (nth_error (tds row) 1) as [td|];
    [rewrite (Hn td eq_refl)|]; clear Hn;
    destruct st as [pn ch]; destruct (caption_span row) as [text|];
    try (intros [= <-]; now auto);
    destruct (PyStr.contains "Part Number" text),
             (PyStr.contains "Chroma" text); simpl;
    try discriminate; intros [= <-]; auto.
Qed.

(** The row loop keeps the value of the last row that sets it. *)
Lemma scan_rows_result (rows : list Row) :
  forall st st',
    scan_rows rows st = Ok st' ->
    fst st' = match find is_part_number_row (rev rows) with
              | Some row => Some (value_cell row)
              | None => fst st
              end /\
    snd st' = match find is_chroma_row (rev rows) with
              | Some row => Some (value_cell row)
              | None => snd st
              end.
Proof.
  induction rows as [|row rows IH]; intros st st'; simpl.
  - intros [= <-]. auto.
  - destruct (row_body row st) as [st1|e] eqn:E; simpl; [|discriminate].
    intros H. destruct (IH _ _ H) as [H1 H2].
    destruct (row_body_result _ _ _ E) as [E1 E2].
    rewrite !find_snoc, H1, H2, E1, E2.
    split.
    + destruct (find is_part_number_row (rev rows)); trivial.
      now destruct (is_part_number_row row).
    + destruct (find is_chroma_row (rev rows)); trivial.
      now destruct (is_chroma_row row).
Qed.

Lemma camera_type_of_values (chroma camera_type : string) :
  camera_type_of chroma = Some camera_type ->
  camera_type = "rgb" \/ camera_type = "gray".
Proof.
  unfold camera_type_of.
  destruct (PyStr.contains "color" (PyStr.lower chroma));
    [intros [= <-]; auto|].
  destruct (PyStr.contains "monochrome" (PyStr.lower chroma)
            || PyStr.contains "nir" (PyStr.lower chroma));
    [intros [= <-]; auto | discriminate].
Qed.

Lemma forallb_false_witness {A} (p : A -> bool) (l : list A) :
  forallb p l = false -> exists x, In x l /\ p x = false.
Proof.
  induction l as [|y l IH]; simpl; [discriminate|].
  destruct (p y) eqn:E; simpl.
  - intros H. destruct (IH H) as (x & Hx & Hp). eauto.
  - eauto.
Qed.


(** ** The record extractor *)

Lemma in_known_families_In (f : string) :
  in_known_families (Some f) = true <-> In f known_families.
Proof.
  unfold in_known_families. rewrite existsb_exists. split.
  - intros (x & Hx & E). apply String.eqb_eq in E. now subst.
  - intros H. exists f. split; [exact H | apply String.eqb_refl].
Qed.

Lemma in_known_families_false (fam : option string) :
  (forall f, fam = Some f -> ~ In f known_families) ->
  in_known_families fam = false.
Proof.
  intros H. destruct fam as [f|]; trivial.
  destruct (in_known_families (Some f)) eqn:E; trivial.
  apply in_known_families_In in E. now destruct (H f eq_refl).
Qed.

Lemma for_fold_cons {A S} (x : A) (l : list A) (body : A -> S -> M S)
    (acc : S) (s : Store) :
  for_fold (x :: l) body acc s
  = match body x acc s with
    | (s', Ok acc') => for_fold l body acc' s'
    | (s', Raise e) => (s', Raise e)
    end.
Proof. reflexivity. Qed.

Section ExtractorFacts.

Variable render : string -> result string.

Lemma div_body_eq (soup : Soup) (div : Tag) (temp : dict) (s : Store) :
  div_body render soup div temp s
  = match scan_rows (trs div) (None, None) with
    | Ok st => filter_and_store render soup (fst st) (snd st) temp s
    | Raise e => (s, Raise e)
    end.
Proof. reflexivity. Qed.

(** A div on a page without a known family is not stored, whatever its
    rows gave: it is skipped with the line the console prints for the
    message of line 163, or the console rejects the message and its
    exception ends the div loop. *)
Lemma filter_and_store_skip (soup : Soup) (fam part_number chroma : option string)
    (temp : dict) (s : Store) :
  camera_family_of soup = Ok fam -> in_known_families fam = false ->
  filter_and_store render soup part_number chroma temp s
  = match render (family_message part_number) with
    | Ok line =>
        (mkStore (part_numbers_data s) (console s ++ [line]), Ok temp)
    | Raise e => (s, Raise e)
    end.
Proof.
  intros Hfam Hk. unfold filter_and_store, bind, lift, progress_log, ret.
  rewrite Hfam, Hk. simpl.
  now destruct (render (family_message part_number)).
Qed.



(** On a page without a known family the div loop never adds a record
    and never touches the shared dictionary. *)
Lemma for_fold_skips (soup : Soup) (fam : option string) :
  camera_family_of soup = Ok fam -> in_known_families fam = false ->
  forall divs temp s,
    part_numbers_data (fst (for_fold divs (div_body render soup) temp s))
    = part_numbers_data s /\
    forall temp', snd (for_fold divs (div_body render soup) temp s) = Ok temp' ->
                  temp' = temp.
Proof.
  intros Hfam Hk. induction divs as [|div divs IH]; intros temp s.
  - split; [reflexivity | intros temp' [= <-]; reflexivity].
  - rewrite for_fold_cons, div_body_eq.
    destruct (scan_rows (trs div) (None, None)) as [[pn ch]|e]; simpl.
    + rewrite (filter_and_store_skip _ _ _ _ _ _ Hfam Hk).
      destruct (render (family_message pn)) as [line|e]; simpl.
      * destruct (IH temp (mkStore (part_numbers_data s) (console s ++ [line])))
          as [H1 H2].
        split; [exact H1 | exact H2].
      * split; [reflexivity | discriminate].
    + split; [reflexivity | discriminate].
Qed.

Lemma extract_skips (soup : Soup) (fam : option string) :
  camera_family_of soup = Ok fam -> in_known_families fam = false ->
  forall divs s,
    part_numbers_data (fst (extract_part_numbers_and_chroma render divs soup s))
    = part_numbers_data s.
Proof.
  intros Hfam Hk divs s.
  unfold extract_part_numbers_and_chroma, collect, bind, locked_update.
  destruct (for_fold_skips soup fam Hfam Hk divs [] s) as [H1 H2].
  destruct (for_fold divs (div_body render soup) [] s) as [s' [temp|e]];
    simpl in *.
  - now rewrite (H2 temp eq_refl), H1.
  - exact H1.
Qed.


(** C3: when the family read from the breadcrumb is not one of the known
    tags, no div is stored, with or without a part number and a chroma:
    after the row loop a div is skipped with a log line, or the console
    rejects the message of line 163 and the div loop ends with its
    exception.  The div loop collects no record and the shared
    dictionary is left as it was.  A page of family "Sensors" with a
    part number and a chroma gives nothing. *)
Theorem unknown_family_emits_no_record (soup : Soup) (fam : option string) :
  camera_family_of soup = Ok fam ->
  (forall f, fam = Some f -> ~ In f known_families) ->
  (forall part_number chroma temp s,
      filter_and_store render soup part_number chroma temp s
      = match render (family_message part_number) with
        | Ok line =>
            (mkStore (part_numbers_data s) (console s ++ [line]), Ok temp)
        | Raise e => (s, Raise e)
        end) /\
  (forall product_divs s temp,
      snd (collect render product_divs soup s) = Ok temp -> temp = []) /\
  (forall product_divs s,
      part_numbers_data
        (fst (extract_part_numbers_and_chroma render product_divs soup s))
      = part_numbers_data s) /\
  fst (extracted render ["Home"; "Sensors"] "MQ013CG-E2" "Color") = [].
Proof.
  intros Hfam Hk. apply in_known_families_false in Hk.
  split; [|split; [|split]].
  - intros. now apply (filter_and_store_skip soup fam).
  - intros divs s temp. apply (for_fold_skips soup fam Hfam Hk divs [] s).
  - apply (extract_skips soup fam Hfam Hk).
  - unfold extracted.
    pose proof (extract_skips (product_page ["Home"; "Sensors"]
                                 [product_div "MQ013CG-E2" "Color"])
                  (Some "Sensors") eq_refl eq_refl
                  [product_div "MQ013CG-E2" "Color"] empty_store) as H.
    simpl find_all_div.
    destruct (extract_part_numbers_and_chroma render _ _ empty_store)
      as [s' r]. exact H.
Qed.




End ExtractorFacts.

(** ** What one div does *)

Section DivFacts.

Variable render : string -> result string.

Lemma filter_and_store_returns (soup : Soup) (pn ch : option string)
    (temp : dict) (s : Store) :
  readable_breadcrumb soup = true ->
  (forall msg, renders render msg) ->
  exists s' temp', filter_and_store render soup pn ch temp s = (s', Ok temp').
Proof.
  intros Hb Hr. destruct (camera_family_of_returns soup Hb) as [fam Hfam].
  unfold filter_and_store, bind, lift, progress_log, ret. rewrite Hfam.
  destruct (negb (in_known_families fam)); simpl.
  - destruct (Hr (family_message pn)) as [line ->]. eauto.
  - destruct (truthy_opt pn && truthy_opt ch); simpl; eauto.
    destruct (camera_type_of (fmt ch)); simpl; eauto.
    destruct (Hr (chroma_message ch pn)) as [line ->]. eauto.
Qed.

(** Where the extractor does return: every labelled row has its value
    cell, the breadcrumb can be read and the console prints every
    message. *)
Lemma extract_part_numbers_and_chroma_returns (divs : list Tag) (soup : Soup) :
  forallb (fun div => forallb readable_row (trs div)) divs = true ->
  readable_breadcrumb soup = true ->
  (forall msg, renders render msg) ->
  forall s, exists s',
    extract_part_numbers_and_chroma render divs soup s = (s', Ok tt).
Proof.
  intros Hd Hb Hr s. unfold extract_part_numbers_and_chroma, collect, bind.
  assert (H : forall temp s0, exists s1 temp1,
               for_fold divs (div_body render soup) temp s0 = (s1, Ok temp1)).
  { induction divs as [|div divs IH]; intros temp s0.
    - simpl. unfold ret. eauto.
    - simpl in Hd. apply andb_prop in Hd as [Hdiv Hdivs].
      rewrite for_fold_cons, div_body_eq.
      destruct (scan_rows_returns _ Hdiv (None, None)) as [st ->].
      destruct (filter_and_store_returns soup (fst st) (snd st) temp s0 Hb Hr)
        as (s1 & temp1 & ->).
      apply IH, Hdivs. }
  destruct (H [] s) as (s1 & temp1 & ->). unfold locked_update. eauto.
Qed.

(** C8 fails on the code: a part number row with a single cell makes
    [row.find_all("td")[1]] raise, and a second pathway element without
    text makes [split()[-1]] raise; in both cases
    [extract_part_numbers_and_chroma] raises [IndexError]. *)
Theorem extract_part_numbers_and_chroma_raises :
  (let soup := product_page ["Home"; "Cameras xiQ"] [short_row_div] in
   extract_part_numbers_and_chroma render (find_all_div soup "product-type")
                                   soup empty_store
   = (empty_store, Raise (IndexError "list index out of range"))) /\
  (let soup := product_page ["Home"; ""] [product_div "MQ013CG-E2" "Color"] in
   extract_part_numbers_and_chroma render (find_all_div soup "product-type")
                                   soup empty_store
   = (empty_store, Raise (IndexError "list index out of range"))).
Proof. split; reflexivity. Qed.

(** A div leaves [temp] as it is or stores one record under the value
    cell of a part number row. *)
Lemma div_body_result (soup : Soup) (div : Tag) (temp temp' : dict) (s : Store) :
  snd (div_body render soup div temp s) = Ok temp' ->
  temp' = temp \/
  exists row family camera_type,
    In row (trs div) /\ is_part_number_row row = true /\
    value_cell row <> "" /\ In family known_families /\
    (camera_type = "rgb" \/ camera_type = "gray") /\
    temp' = dict_set (value_cell row) (mkRecord camera_type family 0 0) temp.
Proof.
  rewrite div_body_eq.
  destruct (scan_rows (trs div) (None, None)) as [[pn ch]|e] eqn:E;
    [|discriminate].
  apply scan_rows_result in E as [E1 _]. simpl in *.
  unfold filter_and_store, bind, lift, progress_log, ret.
  destruct (camera_family_of soup) as [fam|e]; simpl; [|discriminate].
  destruct (in_known_families fam) eqn:K; simpl.
  2:{ destruct (render (family_message pn)); simpl; [|discriminate].
      intros [= <-]; auto. }
  destruct (truthy_opt pn && truthy_opt ch) eqn:T; simpl;
    [|intros [= <-]; auto].
  destruct (camera_type_of (fmt ch)) as [t|] eqn:C; simpl.
  2:{ destruct (render (chroma_message ch pn)); simpl; [|discriminate].
      intros [= <-]; auto. }
  intros [= <-]. right. apply andb_prop in T as [T _].
  destruct fam as [f|]; [|discriminate]. apply in_known_families_In in K.
  destruct (find is_part_number_row (rev (trs div))) as [row|] eqn:F;
    subst pn; [|discriminate].
  apply find_some in F as [Hin Hrow]. apply in_rev in Hin.
  exists row, f, t. simpl in *. repeat split; trivial.
  - now apply truthy_nonempty.
  - eapply camera_type_of_values, C.
Qed.

Lemma for_fold_div_body_inv (I : dict -> Prop) (soup : Soup) :
  (forall div temp s temp',
      I temp -> snd (div_body render soup div temp s) = Ok temp' -> I temp') ->
  forall divs temp s temp',
    I temp ->
    snd (for_fold divs (div_body render soup) temp s) = Ok temp' -> I temp'.
Proof.
  intros Hb. induction divs as [|div divs IH]; intros temp s temp' Ht.
  - now intros [= <-].
  - rewrite for_fold_cons.
    pose proof (Hb div temp s) as Hd.
    destruct (div_body render soup div temp s) as [s1 [t1|e]]; [|discriminate].
    apply IH. now apply Hd.
Qed.

(** What holds of the empty dictionary and is kept by every store of a
    div holds of the records of a page. *)
Lemma page_records_inv (I : dict -> Prop) (soup : Soup) (temp : dict) :
  I [] ->
  (forall row family camera_type d,
      I d -> value_cell row <> "" -> In family known_families ->
      camera_type = "rgb" \/ camera_type = "gray" ->
      I (dict_set (value_cell row) (mkRecord camera_type family 0 0) d)) ->
  page_records render soup = Ok temp -> I temp.
Proof.
  intros H0 Hset. unfold page_records, collect.
  apply for_fold_div_body_inv; trivial.
  intros div t s t' Ht Hd.
  apply div_body_result in Hd as [->|(row & f & c & _ & _ & Hne & Hf & Hc & ->)];
    trivial.
  now apply Hset.
Qed.

End DivFacts.

(** ** Entries and keys of merged dictionaries *)

Section MergeFacts.

Variable P : string * CatalogRecord -> Prop.

Lemma dict_set_Forall (k : string) (v : CatalogRecord) (d : dict) :
  Forall P d -> P (k, v) -> Forall P (dict_set k v d).
Proof.
  intros Hd Hkv. induction Hd as [|[k' v'] d Hx Hd IH]; simpl.
  - now constructor.
  - destruct (String.eqb k' k); constructor; trivial.
Qed.

Lemma update_Forall (other d : dict) :
  Forall P d -> Forall P other -> Forall P (update d other).
Proof.
  unfold update. intros Hd Ho. revert d Hd.
  induction Ho as [|[k v] other Hx Ho IH]; intros d Hd; simpl; trivial.
  apply IH. now apply dict_set_Forall.
Qed.

Lemma sort_Forall (d : dict) :
  Forall P d -> Forall P (sort_by_family_and_part_number d).
Proof.
  intros Hd. unfold sort_by_family_and_part_number, dict_of_items.
  apply update_Forall; [constructor|].
  eapply Permutation_Forall; [apply sorted_perm | exact Hd].
Qed.

End MergeFacts.

Lemma dict_set_keys (k : string) (v : CatalogRecord) (d : dict) :
  keys (dict_set k v d) = if existsb (String.eqb k) (keys d)
                          then keys d else keys d ++ [k].
Proof.
  induction d as [|[k' v'] d IH]; simpl; trivial.
  rewrite (String.eqb_sym k k').
  destruct (String.eqb_spec k' k) as [->|N]; simpl; trivial.
  rewrite IH. now destruct (existsb (String.eqb k) (keys d)).
Qed.

Lemma dict_set_keys_in (k k' : string) (v : CatalogRecord) (d : dict) :
  k' = k \/ In k' (keys d) -> In k' (keys (dict_set k v d)).
Proof.
  rewrite dict_set_keys.
  destruct (existsb (String.eqb k) (keys d)) eqn:E.
  - intros [->|H]; trivial.
    apply existsb_exists in E as (x & Hx & Ex).
    apply String.eqb_eq in Ex. now subst.
  - rewrite in_app_iff. simpl. intuition.
Qed.

Lemma update_keys_in (k : string) (other d : dict) :
  In k (keys d) \/ In k (keys other) -> In k (keys (update d other)).
Proof.
  unfold update. revert d.
  induction other as [|[k' v'] other IH]; intros d; simpl.
  - tauto.
  - intros H. apply IH.
    destruct H as [H|[H|H]]; auto; left; apply dict_set_keys_in; auto.
Qed.

Lemma dict_set_wf (k : string) (v : CatalogRecord) (d : dict) :
  wf d -> wf (dict_set k v d).
Proof.
  unfold wf. intros H. rewrite dict_set_keys.
  destruct (existsb (String.eqb k) (keys d)) eqn:E; trivial.
  apply NoDup_app; trivial.
  - repeat constructor. simpl. tauto.
  - intros x Hx [Hk|[]]. subst x.
    assert (Ht : existsb (String.eqb k) (keys d) = true); [|congruence].
    apply existsb_exists. exists k. split; [exact Hx | apply String.eqb_refl].
Qed.

Lemma update_wf (other d : dict) : wf d -> wf (update d other).
Proof.
  unfold update. revert d.
  induction other as [|[k v] other IH]; intros d H; simpl; trivial.
  apply IH. now apply dict_set_wf.
Qed.

(** ** Lookups in merged dictionaries *)

Lemma dict_get_dict_set (k k' : string) (v : CatalogRecord) (d : dict) :
  dict_get k (dict_set k' v d)
  = if String.eqb k' k then Some v else dict_get k d.
Proof.
  unfold dict_get. induction d as [|[k0 v0] d IH]; simpl.
  - now destruct (String.eqb k' k).
  - destruct (String.eqb_spec k0 k') as [->|N]; simpl.
    + now destruct (String.eqb k' k).
    + destruct (String.eqb_spec k0 k) as [->|N0]; simpl.
      * apply String.eqb_neq in N. rewrite String.eqb_sym in N. now rewrite N.
      * exact IH.
Qed.

Lemma dict_get_app (k : string) (a b : dict) :
  dict_get k (a ++ b)
  = match dict_get k a with
    | Some v => Some v
    | None => dict_get k b
    end.
Proof.
  unfold dict_get. induction a as [|[k0 v0] a IH]; simpl; trivial.
  now destruct (String.eqb k0 k).
Qed.

Lemma dict_get_update (k : string) (other d : dict) :
  dict_get k (update d other)
  = match last_write k other with
    | Some v => Some v
    | None => dict_get k d
    end.
Proof.
  unfold update, last_write. revert d.
  induction other as [|[k' v'] other IH]; intros d; simpl; trivial.
  rewrite IH, dict_get_app, dict_get_dict_set.
  destruct (dict_get k (rev other)); trivial.
  unfold dict_get; simpl. now destruct (String.eqb k' k).
Qed.

Lemma dict_get_In (k : string) (v : CatalogRecord) (d : dict) :
  wf d -> (dict_get k d = Some v <-> In (k, v) d).
Proof.
  unfold wf, dict_get. induction d as [|[k0 v0] d IH]; simpl; intros Hnd.
  - split; [discriminate | tauto].
  - inversion Hnd as [|? ? Hk Hd]; subst.
    destruct (String.eqb_spec k0 k) as [->|N]; simpl.
    + split; [intros [= ->]; now left|].
      intros [[= ->]|H]; trivial.
      destruct Hk. change k with (fst (k, v)). now apply in_map.
    + rewrite (IH Hd). split; [tauto|]. intros [[= E _]|H]; [contradiction|trivial].
Qed.

Lemma dict_get_None (k : string) (d : dict) :
  dict_get k d = None <-> ~ In k (keys d).
Proof.
  unfold dict_get, keys. induction d as [|[k0 v0] d IH]; simpl; [tauto|].
  destruct (String.eqb_spec k0 k) as [->|N]; simpl; [|tauto].
  split; [discriminate | tauto].
Qed.

Lemma dict_set_In (e : string * CatalogRecord) (k : string) (v : CatalogRecord)
    (d : dict) :
  In e (dict_set k v d) -> e = (k, v) \/ In e d.
Proof.
  induction d as [|[k0 v0] d IH]; simpl.
  - intros [<-|[]]; auto.
  - destruct (String.eqb k0 k); simpl; intros [<-|H]; auto.
    destruct (IH H); auto.
Qed.

Lemma update_In (e : string * CatalogRecord) (other d : dict) :
  In e (update d other) -> In e d \/ In e other.
Proof.
  unfold update. revert d.
  induction other as [|[k v] other IH]; intros d; simpl; auto.
  intros H. destruct (IH _ H) as [H1|H1]; auto.
  destruct (dict_set_In _ _ _ _ H1) as [->|H2]; auto.
Qed.

Lemma update_keys_only (k : string) (other d : dict) :
  In k (keys (update d other)) -> In k (keys d) \/ In k (keys other).
Proof.
  unfold keys. intros H. apply in_map_iff in H as (e & <- & He).
  destruct (update_In _ _ _ He); [left | right]; now apply in_map.
Qed.

Lemma dict_of_items_wf_always (items : dict) : wf (dict_of_items items).
Proof. apply update_wf. constructor. Qed.

Lemma sort_wf (d : dict) : wf d -> wf (sort_by_family_and_part_number d).
Proof.
  intros H. rewrite sort_by_family_and_part_number_eq by trivial.
  now apply sorted_wf.
Qed.

(** ** Computations that only log *)

Section LogOnly.

Variable render : string -> result string.

Lemma log_only_ret {A} (a : A) : log_only (ret a).
Proof. intros [d c]. unfold ret; simpl. now rewrite app_nil_r. Qed.

Lemma log_only_lift {A} (r : result A) : log_only (lift r).
Proof. intros [d c]. unfold lift; simpl. now rewrite app_nil_r. Qed.

Lemma log_only_progress_log (msg : string) : log_only (progress_log render msg).
Proof.
  intros [d c]. unfold progress_log. destruct (render msg); simpl; trivial.
  now rewrite app_nil_r.
Qed.

Lemma log_only_bind {A B} (m : M A) (k : A -> M B) :
  log_only m -> (forall a, log_only (k a)) -> log_only (bind m k).
Proof.
  intros Hm Hk s. unfold bind. rewrite (Hm s).
  pose proof (Hm empty_store) as H0.
  destruct (m empty_store) as [[d0 c0] [a|e]]; simpl in *;
    injection H0 as ->; trivial.
  rewrite (Hk a (mkStore (part_numbers_data s) (console s ++ c0))).
  rewrite (Hk a (mkStore [] c0)). simpl. now rewrite app_assoc.
Qed.

Lemma log_only_for_fold {A S} (l : list A) (body : A -> S -> M S) :
  (forall x acc, log_only (body x acc)) ->
  forall acc, log_only (for_fold l body acc).
Proof.
  intros Hb. induction l as [|x l IH]; intros acc; simpl.
  - apply log_only_ret.
  - apply log_only_bind; auto.
Qed.

Lemma log_only_filter_and_store (soup : Soup) (pn ch : option string)
    (temp : dict) :
  log_only (filter_and_store render soup pn ch temp).
Proof.
  unfold filter_and_store.
  apply log_only_bind; [apply log_only_lift|]. intros fam.
  destruct (negb (in_known_families fam)).
  - apply log_only_bind; [apply log_only_progress_log
                         | intros; apply log_only_ret].
  - destruct (truthy_opt pn && truthy_opt ch); [|apply log_only_ret].
    destruct (camera_type_of (fmt ch)); [apply log_only_ret|].
    apply log_only_bind; [apply log_only_progress_log
                         | intros; apply log_only_ret].
Qed.

Lemma log_only_collect (divs : list Tag) (soup : Soup) :
  log_only (collect render divs soup).
Proof.
  apply log_only_for_fold. intros div temp. unfold div_body.
  apply log_only_bind; [apply log_only_lift|].
  intros st. apply log_only_filter_and_store.
Qed.

(** The extractor on a page: the page's log lines, then the merge of its
    records, or its exception and no merge. *)
Lemma extract_run (soup : Soup) (s : Store) :
  extract_part_numbers_and_chroma render (find_all_div soup "product-type")
                                  soup s
  = match page_records render soup with
    | Ok temp =>
        (mkStore (update (part_numbers_data s) temp)
                 (console s ++ page_log render soup), Ok tt)
    | Raise e =>
        (mkStore (part_numbers_data s) (console s ++ page_log render soup),
         Raise e)
    end.
Proof.
  unfold extract_part_numbers_and_chroma, bind, page_records, page_log.
  rewrite (log_only_collect _ soup s).
  now destruct (snd (collect render (find_all_div soup "product-type") soup
                             empty_store)).
Qed.

End LogOnly.

(** ** The crawl, level by level *)

Lemma update_app (d a b : dict) : update d (a ++ b) = update (update d a) b.
Proof. unfold update. apply fold_left_app. Qed.

Section CrawlRuns.

Variable requests_get : string -> result Response.
Variable urljoin : string -> string -> result string.
Variable render : string -> result string.
Variable sched : Schedule.

(** A loop of tasks that each merge some items and print some lines. *)
Lemma for_each_run {A} (body : A -> M unit)
    (writes : A -> dict) (lines : A -> list string) :
  (forall x s, body x s = (mkStore (update (part_numbers_data s) (writes x))
                                   (console s ++ lines x), Ok tt)) ->
  forall l s,
    for_each l body s
    = (mkStore (update (part_numbers_data s) (flat_map writes l))
               (console s ++ flat_map lines l), Ok tt).
Proof.
  intros Hb. induction l as [|x l IH]; intros s; simpl.
  - unfold ret. destruct s; simpl. now rewrite app_nil_r.
  - unfold bind. rewrite Hb, IH. simpl.
    now rewrite update_app, app_assoc.
Qed.

(** One worker: the lines of its page, the merge of its records, and the
    result kept in its future. *)
Lemma scrape_linked_page_run (link_url url : string) (s : Store) :
  scrape_linked_page requests_get urljoin render url link_url s
  = (mkStore (update (part_numbers_data s)
                     (worker_writes requests_get urljoin render link_url url))
             (console s
              ++ worker_lines requests_get urljoin render link_url url),
     worker_result requests_get urljoin render link_url url).
Proof.
  unfold scrape_linked_page, worker_writes, worker_lines, worker_result,
    worker_soup, bind, lift.
  destruct (urljoin link_url url) as [u|e]; simpl.
  - destruct (fetch_soup requests_get u) as [soup|e]; simpl.
    + rewrite extract_run. now destruct (page_records render soup).
    + destruct s; simpl. now rewrite app_nil_r.
  - destruct s; simpl. now rewrite app_nil_r.
Qed.

Lemma run_pool_run (link_url : string) (urls : list string) :
  forall s,
    run_pool requests_get urljoin render link_url urls s
    = (mkStore (update (part_numbers_data s)
                  (flat_map (worker_writes requests_get urljoin render link_url)
                            urls))
               (console s
                ++ flat_map (worker_lines requests_get urljoin render link_url)
                            urls),
       Ok (map (worker_result requests_get urljoin render link_url) urls)).
Proof.
  induction urls as [|url urls IH]; intros s; simpl.
  - unfold ret. destruct s; simpl. now rewrite app_nil_r.
  - unfold bind, attempt. rewrite scrape_linked_page_run, IH. simpl.
    unfold ret. now rewrite update_app, app_assoc.
Qed.

Lemma product_results_run (results : list (result unit)) :
  forall s,
    for_each results product_result s
    = (mkStore (part_numbers_data s) (console s ++ error_lines results), Ok tt).
Proof.
  induction results as [|r results IH]; intros s; simpl.
  - unfold ret. destruct s; simpl. now rewrite app_nil_r.
  - unfold bind, product_result, try_except, lift, print.
    destruct r as [[]|e]; rewrite IH; simpl; trivial.
    unfold product_error_line. now rewrite <- app_assoc.
Qed.

Lemma category_task_run (link_url link : string) (s : Store) :
  category_task requests_get urljoin render sched link_url link s
  = (mkStore (update (part_numbers_data s)
                     (category_writes requests_get urljoin render sched
                                      link_url link))
             (console s
              ++ category_lines requests_get urljoin render sched link_url link),
     Ok tt).
Proof.
  unfold category_task, try_except, bind, lift, category_writes,
    category_lines, scraped_urls.
  destruct (fetch_subcategories requests_get urljoin link_url link)
    as [links|e]; [|reflexivity].
  destruct (submit_all urljoin link_url links) as [submitted failure]; simpl.
  rewrite run_pool_run.
  destruct failure as [e|].
  - unfold print. simpl. now rewrite <- app_assoc.
  - rewrite product_results_run. simpl. now rewrite <- app_assoc.
Qed.

(** The whole crawl: the root failure is raised as it is; otherwise the
    crawl returns the dictionary of all merged items. *)
Lemma fetch_part_numbers_run (link_url : string) :
  fetch_part_numbers requests_get urljoin render sched link_url
  = match fetch_main_categories requests_get link_url with
    | Raise e => ([], Raise e)
    | Ok main_category_links =>
        (crawl_lines requests_get urljoin render sched link_url
                     main_category_links,
         Ok (dict_of_items
               (crawl_writes requests_get urljoin render sched link_url
                             main_category_links)))
    end.
Proof.
  unfold fetch_part_numbers.
  destruct (fetch_main_categories requests_get link_url) as [links|e]; trivial.
  now rewrite (for_each_run _ _ _ (category_task_run link_url)).
Qed.

(** [scrap_page] as a whole: its assertion never fails. *)
Lemma scrap_page_run (link_url : string) :
  scrap_page requests_get urljoin render sched link_url
  = match fetch_main_categories requests_get link_url with
    | Raise e => ([], Raise e)
    | Ok main_category_links =>
        (crawl_lines requests_get urljoin render sched link_url
                     main_category_links,
         Ok (sort_by_family_and_part_number
               (dict_of_items
                  (crawl_writes requests_get urljoin render sched link_url
                                main_category_links))))
    end.
Proof.
  unfold scrap_page. rewrite fetch_part_numbers_run.
  destruct (fetch_main_categories requests_get link_url) as [links|e]; trivial.
  simpl.
  set (d := dict_of_items
              (crawl_writes requests_get urljoin render sched link_url links)).
  assert (Hwf : wf d) by (apply update_wf; constructor).
  assert (Hs : wf (sort_by_family_and_part_number d)).
  { rewrite sort_by_family_and_part_number_eq by trivial. now apply sorted_wf. }
  rewrite (nodup_fixed_point string_dec Hs), Nat.eqb_refl. reflexivity.
Qed.

End CrawlRuns.

(** ** Stripping *)

Section StripFacts.

Import PyStr.

Lemma rstrip_cons (c : ascii) (s : string) :
  rstrip (String c s)
  = match rstrip s with
    | EmptyString => if is_space c then EmptyString else String c EmptyString
    | String a r => String c (String a r)
    end.
Proof. reflexivity. Qed.

Lemma lstrip_head (s : string) : starts_with_space (lstrip s) = false.
Proof.
  induction s as [|c s IH]; simpl; trivial.
  destruct (is_space c) eqn:E; trivial.
Qed.

Lemma rstrip_keeps_head (c : ascii) (s : string) :
  is_space c = false -> exists r, rstrip (String c s) = String c r.
Proof.
  intros Hc. rewrite rstrip_cons. destruct (rstrip s); [rewrite Hc|]; eauto.
Qed.

Lemma strip_no_space_before (s : string) : starts_with_space (strip s) = false.
Proof.
  unfold strip. pose proof (lstrip_head s) as H.
  destruct (lstrip s) as [|c t]; trivial. simpl in H.
  destruct (rstrip_keeps_head c t H) as [r ->]. exact H.
Qed.

Lemma rstrip_no_space_after (s : string) : ends_with_space (rstrip s) = false.
Proof.
  induction s as [|c s IH]; trivial.
  rewrite rstrip_cons. destruct (rstrip s) as [|a r].
  - destruct (is_space c) eqn:E; trivial.
  - exact IH.
Qed.

Lemma strip_no_space_after (s : string) : ends_with_space (strip s) = false.
Proof. apply rstrip_no_space_after. Qed.

Lemma lstrip_decomp (s : string) :
  exists a, s = (a ++ lstrip s)%string /\ all_space a = true.
Proof.
  induction s as [|c s (a & Hs & Ha)]; simpl.
  - now exists "".
  - destruct (is_space c) eqn:E.
    + exists (String c a). simpl. rewrite E, Ha. now rewrite <- Hs.
    + now exists "".
Qed.

Lemma rstrip_decomp (s : string) :
  exists b, s = (rstrip s ++ b)%string /\ all_space b = true.
Proof.
  induction s as [|c s (b & Hs & Hb)].
  - now exists "".
  - rewrite rstrip_cons. destruct (rstrip s) as [|a r].
    + simpl in Hs. subst b. destruct (is_space c) eqn:E.
      * exists (String c s). simpl. now rewrite E, Hb.
      * now exists s.
    + exists b. split; trivial. simpl in *. now rewrite <- Hs.
Qed.

Lemma strip_stripped_of (s : string) : stripped_of s (strip s).
Proof.
  split; [|split; [apply strip_no_space_before | apply strip_no_space_after]].
  destruct (lstrip_decomp s) as (a & Hs & Ha).
  destruct (rstrip_decomp (lstrip s)) as (b & Hl & Hb).
  exists a, b. unfold strip. now rewrite <- Hl.
Qed.

End StripFacts.

(** ** Invariants of the records of a page *)

Section PageInvariants.

Variable render : string -> result string.

Lemma page_records_valid (soup : Soup) (temp : dict) :
  page_records render soup = Ok temp -> Forall valid_entry temp.
Proof.
  apply (page_records_inv render (Forall valid_entry)); [constructor|].
  intros row f c d Hd Hne Hf _. apply dict_set_Forall; trivial. now split.
Qed.

Lemma page_records_schema (soup : Soup) (temp : dict) :
  page_records render soup = Ok temp -> Forall schema_entry temp.
Proof.
  apply (page_records_inv render (Forall schema_entry)); [constructor|].
  intros row f c d Hd _ _ Hc. apply dict_set_Forall; trivial.
  repeat split; trivial.
Qed.

Lemma page_records_stripped (soup : Soup) (temp : dict) :
  page_records render soup = Ok temp -> Forall stripped_entry temp.
Proof.
  apply (page_records_inv render (Forall stripped_entry)); [constructor|].
  intros row f c d Hd _ _ _. apply dict_set_Forall; trivial.
  split; [apply strip_no_space_before | apply strip_no_space_after].
Qed.

Lemma page_records_wf (soup : Soup) (temp : dict) :
  page_records render soup = Ok temp -> wf temp.
Proof.
  apply (page_records_inv render wf); [constructor|].
  intros row f c d Hd _ _ _. now apply dict_set_wf.
Qed.

End PageInvariants.

(** ** Invariants of the crawl result *)

Section CrawlInvariant.

Variable requests_get : string -> result Response.
Variable urljoin : string -> string -> result string.
Variable render : string -> result string.
Variable sched : Schedule.

Variable P : string * CatalogRecord -> Prop.
Hypothesis P_pages :
  forall soup temp, page_records render soup = Ok temp -> Forall P temp.

Lemma crawl_writes_Forall (link_url : string) (links : list string) :
  Forall P (crawl_writes requests_get urljoin render sched link_url links).
Proof.
  apply Forall_flat_map, Forall_forall. intros c _.
  apply Forall_flat_map, Forall_forall. intros u _. unfold worker_writes.
  destruct (worker_soup requests_get urljoin link_url u) as [soup|e];
    [|constructor].
  destruct (page_records render soup) as [temp|e] eqn:E; [|constructor].
  now apply P_pages in E.
Qed.

Lemma crawl_result_Forall (link_url : string) (out : list string) (d : dict) :
  fetch_part_numbers requests_get urljoin render sched link_url = (out, Ok d) ->
  Forall P d /\ Forall P (sort_by_family_and_part_number d).
Proof.
  rewrite fetch_part_numbers_run.
  destruct (fetch_main_categories requests_get link_url) as [links|e];
    [|discriminate].
  intros [= _ <-].
  assert (H : Forall P (dict_of_items
                          (crawl_writes requests_get urljoin render sched
                                        link_url links)))
    by (apply update_Forall; [constructor | apply crawl_writes_Forall]).
  split; [exact H | now apply sort_Forall].
Qed.

End CrawlInvariant.

(** C1: whatever the web answers and in whatever order the futures
    complete, every entry of the dictionary returned by
    [fetch_part_numbers], and every entry of the sorted dictionary that
    [scrap_page] writes, has a part number that is not empty and a family
    of the known set. *)
Theorem crawl_output_valid
    (requests_get : string -> result Response)
    (urljoin : string -> string -> result string)
    (render : string -> result string) (sched : Schedule)
    (link_url : string) (out : list string) (d : dict) :
  fetch_part_numbers requests_get urljoin render sched link_url = (out, Ok d) ->
  Forall valid_entry d /\
  scrap_page requests_get urljoin render sched link_url
  = (out, Ok (sort_by_family_and_part_number d)) /\
  Forall valid_entry (sort_by_family_and_part_number d).
Proof.
  intros H.
  destruct (crawl_result_Forall requests_get urljoin render sched valid_entry
              (page_records_valid render) link_url out d H) as [H1 H2].
  repeat split; trivial.
  revert H. rewrite scrap_page_run, fetch_part_numbers_run.
  destruct (fetch_main_categories requests_get link_url) as [links|e];
    [|discriminate].
  now intros [= <- <-].
Qed.

(** C4: when the fetch of the root page fails, because [requests.get]
    raises or because the status makes [raise_for_status] raise,
    [fetch_part_numbers] raises that same exception and returns no
    dictionary. *)
Theorem root_failure_is_fatal
    (requests_get : string -> result Response)
    (urljoin : string -> string -> result string)
    (render : string -> result string) (sched : Schedule)
    (link_url : string) (e : exn) :
  requests_get link_url = Raise e \/
  (exists response msg,
      requests_get link_url = Ok response /\
      status_error response = Some msg /\ e = HTTPError msg) ->
  fetch_main_categories requests_get link_url = Raise e /\
  fetch_part_numbers requests_get urljoin render sched link_url
  = ([], Raise e).
Proof.
  intros H.
  assert (Hroot : fetch_main_categories requests_get link_url = Raise e).
  { unfold fetch_main_categories, fetch_soup, raise_for_status.
    destruct H as [->|(response & msg & -> & Hs & ->)]; simpl; trivial.
    now rewrite Hs. }
  split; trivial. unfold fetch_part_numbers. now rewrite Hroot.
Qed.

(** ** Failures below the root *)




Section Isolation.

Variable requests_get : string -> result Response.
Variable urljoin : string -> string -> result string.
Variable render : string -> result string.
Variable sched : Schedule.
Hypothesis sched_complete : complete sched.

Variable link_url : string.
Variable main_category_links : list string.




End Isolation.


(* ================================================================== *)
(** * Further properties of the script *)

(** ** The file commands *)

(** X1: [check_json_file] never fails its assertion: whatever the file
    holds, repeated keys included, both printed numbers are the number
    of distinct keys of the file. *)
Theorem check_json_file_always_passes (text : json_members) :
  check_json_file text
  = Ok (length (nodup string_dec (map fst text)),
        length (nodup string_dec (map fst text))).
Proof.
  unfold check_json_file, json_loads.
  pose proof (dict_of_items_wf_always text) as Hwf.
  rewrite (nodup_fixed_point string_dec Hwf), Nat.eqb_refl.
  assert (Hlen : length (keys (dict_of_items text))
                 = length (nodup string_dec (map fst text))).
  { apply Permutation_length, NoDup_Permutation; trivial.
    - apply NoDup_nodup.
    - intros k. rewrite nodup_In. split.
      + intros H. apply update_keys_only in H as [[]|H]. exact H.
      + intros H. apply update_keys_in. now right. }
  now rewrite Hlen.
Qed.

(** X2: what [sort_json_file] writes has distinct keys, is sorted by
    family and then by part number, keeps for every key the value that
    [json.loads] gave it, and is left unchanged by a second run of
    [sort_json_file]. *)
Theorem sort_json_file_sorted_and_stable (text : json_members) :
  let written := sort_json_file text in
  wf written /\
  StronglySorted family_part_le written /\
  (forall k, dict_get k written = dict_get k (json_loads text)) /\
  sort_json_file written = written.
Proof.
  unfold sort_json_file, json_dump, json_loads.
  pose proof (dict_of_items_wf_always text) as Hwf.
  set (d := dict_of_items text) in *.
  pose proof (sort_wf d Hwf) as Hs.
  split; [exact Hs|]. split; [now apply sort_sorted|]. split.
  - intros k.
    assert (Hp : Permutation d (sort_by_family_and_part_number d))
      by (rewrite sort_by_family_and_part_number_eq by trivial;
          apply sorted_perm).
    destruct (dict_get k d) as [v|] eqn:E.
    + apply dict_get_In; trivial.
      eapply Permutation_in; [exact Hp|]. now apply dict_get_In.
    + apply dict_get_None. apply dict_get_None in E. intros H. apply E.
      unfold keys in *. eapply Permutation_in; [|exact H].
      apply Permutation_map. now symmetry.
  - rewrite (dict_of_items_wf _ Hs).
    rewrite (sort_by_family_and_part_number_eq d Hwf).
    rewrite sort_by_family_and_part_number_eq by now apply sorted_wf.
    apply sorted_id, sorted_sorted.
Qed.

(** The row loop keeps the last labelled row of each kind. *)
Lemma scan_rows_last (rows : list Row) :
  forallb readable_row rows = true ->
  scan_rows rows (None, None)
  = Ok (option_map value_cell (find is_part_number_row (rev rows)),
        option_map value_cell (find is_chroma_row (rev rows))).
Proof.
  intros Hr. destruct (scan_rows_returns rows Hr (None, None)) as [[pn ch] H].
  rewrite H. destruct (scan_rows_result _ _ _ H) as [H1 H2]. simpl in *.
  rewrite H1, H2.
  now destruct (find is_part_number_row (rev rows)),
               (find is_chroma_row (rev rows)).
Qed.

(** X3: when every labelled row has its value cell, the row loop returns
    the stripped second cell of the last row whose caption names the
    part number, and the stripped second cell of the last row whose
    caption names the chroma and not the part number; a value is [None]
    when there is no such row.  The stripped cell is the text of the
    cell without the white space at its two ends: what is cut off on
    either side is white space only, and what is left neither starts
    nor ends with a white space character. *)
Theorem scan_rows_last_row_wins (rows : list Row) :
  forallb readable_row rows = true ->
  scan_rows rows (None, None)
  = Ok (option_map value_cell (find is_part_number_row (rev rows)),
        option_map value_cell (find is_chroma_row (rev rows))) /\
  forall row, stripped_of (nth 1 (tds row) "") (value_cell row).
Proof.
  intros Hr. split; [now apply scan_rows_last|].
  intros row. apply strip_stripped_of.
Qed.

Lemma dict_get_rev (k : string) (d : dict) :
  wf d -> dict_get k (rev d) = dict_get k d.
Proof.
  intros Hwf.
  assert (Hr : wf (rev d)).
  { unfold wf, keys. rewrite map_rev. now apply NoDup_rev. }
  destruct (dict_get k d) as [v|] eqn:E.
  - apply dict_get_In; trivial. apply in_rev. rewrite rev_involutive.
    now apply dict_get_In.
  - apply dict_get_None. apply dict_get_None in E. intros H. apply E.
    unfold keys in *. rewrite map_rev in H. now apply in_rev.
Qed.


(** ** Invariants and provenance of the crawl result *)

(** X4: every record of a crawl result, before and after sorting, has a
    camera type that is "rgb" or "gray" and a mosaic width and height of
    zero. *)
Theorem crawl_records_follow_schema
    (requests_get : string -> result Response)
    (urljoin : string -> string -> result string)
    (render : string -> result string) (sched : Schedule)
    (link_url : string) (out : list string) (d : dict) :
  fetch_part_numbers requests_get urljoin render sched link_url = (out, Ok d) ->
  Forall schema_entry d /\
  Forall schema_entry (sort_by_family_and_part_number d).
Proof. apply crawl_result_Forall, page_records_schema. Qed.

(** X5: no part number of a crawl result, before or after sorting, has
    white space at either end: its first character and its last
    character are not white space. *)
Theorem crawl_part_numbers_are_stripped
    (requests_get : string -> result Response)
    (urljoin : string -> string -> result string)
    (render : string -> result string) (sched : Schedule)
    (link_url : string) (out : list string) (d : dict) :
  fetch_part_numbers requests_get urljoin render sched link_url = (out, Ok d) ->
  Forall stripped_entry d /\
  Forall stripped_entry (sort_by_family_and_part_number d).
Proof. apply crawl_result_Forall, page_records_stripped. Qed.

(** X6: [scrap_page] raises exactly when the fetch of the root page
    raises, and then with that exception: the assertion of line 246
    never fails.  The dictionary it writes has distinct keys and is
    sorted by family and then by part number. *)
Theorem scrap_page_outcome
    (requests_get : string -> result Response)
    (urljoin : string -> string -> result string)
    (render : string -> result string) (sched : Schedule)
    (link_url : string) :
  (forall e,
      snd (scrap_page requests_get urljoin render sched link_url) = Raise e <->
      fetch_main_categories requests_get link_url = Raise e) /\
  (forall d,
      snd (scrap_page requests_get urljoin render sched link_url) = Ok d ->
      wf d /\ StronglySorted family_part_le d).
Proof.
  rewrite scrap_page_run.
  destruct (fetch_main_categories requests_get link_url) as [links|e0]; simpl.
  - split; [intros e; split; discriminate|].
    intros d [= <-].
    pose proof (dict_of_items_wf_always
                  (crawl_writes requests_get urljoin render sched link_url
                                links)).
    split; [now apply sort_wf | now apply sort_sorted].
  - split; [intros e; split; intros [= ->]; reflexivity | discriminate].
Qed.

Lemma submit_all_from_links (urljoin : string -> string -> result string)
    (link_url : string) (links : list string) :
  forall url,
    In url (fst (submit_all urljoin link_url links)) ->
    exists product_link,
      In product_link links /\ urljoin link_url product_link = Ok url.
Proof.
  induction links as [|l links IH]; intros url; simpl; [tauto|].
  destruct (urljoin link_url l) as [u|e] eqn:E; simpl; [|tauto].
  destruct (submit_all urljoin link_url links) as [us f]; simpl in *.
  intros [<-|H]; [eauto|].
  destruct (IH url H) as (p & Hp & Hu). eauto.
Qed.

(** X7: nothing is invented: when every future completes once, every
    entry of the crawl result is a record collected on a product page
    that was fetched and extracted, whose link was found on a category
    page that was fetched, under the root page. *)
Theorem crawl_entries_come_from_pages
    (requests_get : string -> result Response)
    (urljoin : string -> string -> result string)
    (render : string -> result string) (sched : Schedule)
    (link_url : string) (out : list string) (d : dict) :
  complete sched ->
  fetch_part_numbers requests_get urljoin render sched link_url = (out, Ok d) ->
  forall e, In e d ->
  exists main_category_links link subcategory_links product_link url soup temp,
    fetch_main_categories requests_get link_url = Ok main_category_links /\
    In link main_category_links /\
    fetch_subcategories requests_get urljoin link_url link
    = Ok subcategory_links /\
    In product_link subcategory_links /\
    urljoin link_url product_link = Ok url /\
    worker_soup requests_get urljoin link_url url = Ok soup /\
    page_records render soup = Ok temp /\
    In e temp.
Proof.
  intros (Hout & Hmerge & _). rewrite fetch_part_numbers_run.
  destruct (fetch_main_categories requests_get link_url) as [links|e0];
    [|discriminate].
  intros [= _ <-] e He.
  apply update_In in He as [[]|He].
  apply in_flat_map in He as (link & Hl & He).
  apply in_flat_map in He as (url & Hu & He).
  unfold scraped_urls in Hu.
  destruct (fetch_subcategories requests_get urljoin link_url link)
    as [sub|e1] eqn:Es; [|destruct Hu].
  assert (Hu' : In url (fst (submit_all urljoin link_url sub)))
    by (eapply Permutation_in; [symmetry; apply Hmerge | exact Hu]).
  apply submit_all_from_links in Hu' as (p & Hp & Hjoin).
  unfold worker_writes in He.
  destruct (worker_soup requests_get urljoin link_url url)
    as [soup|e2] eqn:Ef; [|destruct He].
  destruct (page_records render soup) as [temp|e3] eqn:Er; [|destruct He].
  exists links, link, sub, p, url, soup, temp. repeat split; trivial.
  eapply Permutation_in; [symmetry; apply Hout | exact Hl].
Qed.

(** X8: the merge of a page replaces by part number: after
    [extract_part_numbers_and_chroma] on a page whose div loop returns,
    a part number collected on the page has the page's record, and every
    other part number has the record it had before. *)
Theorem merge_replaces_by_part_number
    (render : string -> result string) (soup : Soup) (temp : dict) :
  page_records render soup = Ok temp ->
  forall s k,
    dict_get k (part_numbers_data
                  (fst (extract_part_numbers_and_chroma render
                          (find_all_div soup "product-type") soup s)))
    = match dict_get k temp with
      | Some v => Some v
      | None => dict_get k (part_numbers_data s)
      end.
Proof.
  intros Hrec s k. rewrite extract_run, Hrec. simpl.
  rewrite dict_get_update. unfold last_write.
  rewrite dict_get_rev; trivial. now apply page_records_wf in Hrec.
Qed.

(** X9: the last writer wins: the categories are handled one after the
    other in the order of [outer_order], and within a category the
    workers merge in the order in which they take the lock
    ([merge_order]); the record of a part number in the crawl result is
    the one of the last merge that wrote it in that order, and a part
    number that was never written is absent. *)
Theorem crawl_last_writer_wins
    (requests_get : string -> result Response)
    (urljoin : string -> string -> result string)
    (render : string -> result string) (sched : Schedule)
    (link_url : string) (main_category_links : list string) :
  fetch_main_categories requests_get link_url = Ok main_category_links ->
  exists out d,
    fetch_part_numbers requests_get urljoin render sched link_url
    = (out, Ok d) /\
    forall k,
      dict_get k d
      = last_write k
          (flat_map
             (fun link =>
                flat_map (worker_writes requests_get urljoin render link_url)
                         (scraped_urls requests_get urljoin sched link_url link))
             (outer_order sched _ main_category_links)).
Proof.
  intros Hroot. rewrite fetch_part_numbers_run, Hroot.
  eexists _, _. split; [reflexivity|]. intros k.
  unfold dict_of_items. rewrite dict_get_update.
  now destruct (last_write k _).
Qed.

(** ** Independence of the schedule *)

Lemma sorted_lists_equal {A} (R : A -> A -> Prop) (l l' : list A) :
  StronglySorted R l -> StronglySorted R l' -> Permutation l l' ->
  (forall a b, In a l -> In b l -> R a b -> R b a -> a = b) ->
  l = l'.
Proof.
  intros Hl. revert l'.
  induction Hl as [|x l Hs IH Hx]; intros l' Hl' Hp Hanti.
  - apply Permutation_nil in Hp. now subst.
  - destruct Hl' as [|y l' Hs' Hy].
    + symmetry in Hp. apply Permutation_nil in Hp. discriminate.
    + rewrite Forall_forall in Hx, Hy.
      assert (Hxy : x = y).
      { assert (Hx' : In x (y :: l'))
          by (eapply Permutation_in; [exact Hp | now left]).
        assert (Hy' : In y (x :: l))
          by (eapply Permutation_in; [symmetry; exact Hp | now left]).
        destruct Hx' as [->|Hx']; trivial.
        destruct Hy' as [->|Hy']; trivial.
        apply Hanti; [now left | now right | now apply Hx | now apply Hy]. }
      subst y. f_equal. apply IH; trivial.
      * now apply Permutation_cons_inv in Hp.
      * intros a b Ha Hb. apply Hanti; now right.
Qed.

Lemma entries_equal_by_key (l : dict) (a b : string * CatalogRecord) :
  wf l -> In a l -> In b l -> fst a = fst b -> a = b.
Proof.
  unfold wf, keys. induction l as [|c l IH]; simpl; intros Hnd Ha Hb E; [tauto|].
  inversion Hnd as [|? ? Hc Hl]; subst.
  destruct Ha as [->|Ha], Hb as [->|Hb]; trivial.
  - destruct Hc. rewrite E. now apply in_map.
  - destruct Hc. rewrite <- E. now apply in_map.
  - now apply IH.
Qed.

Lemma sorted_of_permutation (l l' : dict) :
  wf l -> Permutation l l' -> sorted sort_key l = sorted sort_key l'.
Proof.
  intros Hwf Hp.
  apply (sorted_lists_equal (key_le sort_key)); try apply sorted_sorted.
  - rewrite <- (sorted_perm sort_key l), <- (sorted_perm sort_key l'). exact Hp.
  - intros a b Ha Hb Hab Hba. unfold key_le in *.
    apply (entries_equal_by_key l); trivial;
      try (eapply Permutation_in; [symmetry; apply sorted_perm | eassumption]).
    destruct (tuple_ltb_trichotomy (sort_key a) (sort_key b)) as [H|[H|H]];
      try congruence.
    now injection H.
Qed.

Lemma Permutation_flat_map_both {A B} (f g : A -> list B) (l l' : list A) :
  Permutation l l' -> (forall x, Permutation (f x) (g x)) ->
  Permutation (flat_map f l) (flat_map g l').
Proof.
  intros Hp Hfg. rewrite (Permutation_flat_map f Hp).
  clear Hp. induction l' as [|x l' IH]; simpl; trivial.
  now apply Permutation_app.
Qed.

Lemma crawl_writes_permutation
    (requests_get : string -> result Response)
    (urljoin : string -> string -> result string)
    (render : string -> result string) (s1 s2 : Schedule)
    (link_url : string) (links : list string) :
  complete s1 -> complete s2 ->
  Permutation (crawl_writes requests_get urljoin render s1 link_url links)
              (crawl_writes requests_get urljoin render s2 link_url links).
Proof.
  intros (Ho1 & Hm1 & _) (Ho2 & Hm2 & _). unfold crawl_writes.
  apply Permutation_flat_map_both.
  - rewrite <- (Ho1 _ links). apply Ho2.
  - intros c. unfold category_writes, scraped_urls.
    destruct (fetch_subcategories requests_get urljoin link_url c) as [sub|e];
      trivial.
    apply Permutation_flat_map. rewrite <- (Hm1 c _ _). apply Hm2.
Qed.

(** X10: when no part number is written twice during a crawl, the
    dictionary that [scrap_page] writes does not depend on the order in
    which the workers merge and the futures are yielded. *)
Theorem scrap_page_independent_of_schedule
    (requests_get : string -> result Response)
    (urljoin : string -> string -> result string)
    (render : string -> result string) (s1 s2 : Schedule)
    (link_url : string) (main_category_links : list string) :
  complete s1 -> complete s2 ->
  fetch_main_categories requests_get link_url = Ok main_category_links ->
  wf (crawl_writes requests_get urljoin render s1 link_url
                   main_category_links) ->
  snd (scrap_page requests_get urljoin render s1 link_url)
  = snd (scrap_page requests_get urljoin render s2 link_url).
Proof.
  intros H1 H2 Hroot Hwf. rewrite !scrap_page_run, Hroot. simpl. f_equal.
  pose proof (crawl_writes_permutation requests_get urljoin render s1 s2
                link_url main_category_links H1 H2) as Hp.
  assert (Hwf2 : wf (crawl_writes requests_get urljoin render s2 link_url
                                  main_category_links)).
  { unfold wf, keys in *. eapply Permutation_NoDup; [|exact Hwf].
    now apply Permutation_map. }
  rewrite !dict_of_items_wf by trivial.
  rewrite !sort_by_family_and_part_number_eq by trivial.
  now apply sorted_of_permutation.
Qed.

(** ** The family token *)

Section SplitFacts.

Import PyStr.

Lemma push_token_app (tok : string) (r l : list string) :
  push_token tok (r ++ l) = push_token tok r ++ l.
Proof. now destruct tok. Qed.

Lemma split_go_app_space (a b : string) (c : ascii) :
  is_space c = true ->
  split_go (a ++ String c b)
  = (fst (split_go a), snd (split_go a) ++ split b).
Proof.
  intros Hc. induction a as [|x a IH]; simpl.
  - rewrite Hc. unfold split. now destruct (split_go b).
  - rewrite IH. destruct (split_go a) as [t r]; simpl.
    destruct (is_space x); trivial. now rewrite push_token_app.
Qed.

Lemma split_app_space (a b : string) (c : ascii) :
  is_space c = true -> split (a ++ String c b) = split a ++ split b.
Proof.
  intros Hc. unfold split at 1 2. rewrite (split_go_app_space a b c Hc).
  destruct (split_go a) as [t r]; simpl. apply push_token_app.
Qed.

Lemma split_go_no_space (tok : string) :
  no_space tok = true -> split_go tok = (tok, []).
Proof.
  induction tok as [|x tok IH]; simpl; trivial.
  intros H. apply andb_prop in H as [Hx Ht]. rewrite (IH Ht).
  apply negb_true_iff in Hx. now rewrite Hx.
Qed.

Lemma split_all_space (ws : string) : all_space ws = true -> split ws = [].
Proof.
  unfold split. induction ws as [|x ws IH]; simpl; trivial.
  intros H. apply andb_prop in H as [Hx Hw]. rewrite Hx.
  specialize (IH Hw). now destruct (split_go ws).
Qed.

Lemma append_empty (s : string) : (s ++ "")%string = s.
Proof. induction s; simpl; congruence. Qed.

Lemma split_token (tok ws : string) :
  no_space tok = true -> tok <> "" -> all_space ws = true ->
  split (tok ++ ws) = [tok].
Proof.
  intros Ht Hne Hw. destruct ws as [|c ws].
  - rewrite append_empty. unfold split. rewrite (split_go_no_space _ Ht).
    now destruct tok.
  - simpl in Hw. apply andb_prop in Hw as [Hc Hw].
    rewrite (split_app_space _ _ _ Hc), (split_all_space _ Hw), app_nil_r.
    unfold split. rewrite (split_go_no_space _ Ht). now destruct tok.
Qed.

End SplitFacts.

(** X11: the camera family is the last token of the second pathway
    element: when its text ends with a word [tok] without white space,
    followed by white space only and preceded by nothing or by a white
    space character, [camera_family_of] returns [tok]. *)
Theorem camera_family_is_last_token (soup : Soup) (text tok ws : string) :
  nth_error (pathways soup) 1 = Some text ->
  no_space tok = true -> tok <> "" -> all_space ws = true ->
  text = (tok ++ ws)%string \/
  (exists a c, PyStr.is_space c = true /\
               text = (a ++ String c (tok ++ ws))%string) ->
  camera_family_of soup = Ok (Some tok).
Proof.
  intros Hn Ht Hne Hw Htext.
  assert (Hlast : list_last (PyStr.split text) = Ok tok).
  { unfold list_last.
    destruct Htext as [->|(a & c & Hc & ->)].
    - now rewrite (split_token _ _ Ht Hne Hw).
    - rewrite (split_app_space _ _ _ Hc), (split_token _ _ Ht Hne Hw).
      now rewrite rev_app_distr. }
  unfold camera_family_of, list_index.
  assert (Hlen : 1 < length (pathways soup))
    by (apply nth_error_Some; congruence).
  destruct (Nat.leb_spec 2 (length (pathways soup))); [|lia].
  rewrite Hn. simpl. now rewrite Hlast.
Qed.

(** ** All or nothing *)

(** X12: a page is merged as a whole or not at all: when the div loop
    raises, [extract_part_numbers_and_chroma] raises the same exception
    and the shared dictionary is left as it was, whatever the earlier
    divs of the page had collected. *)
Theorem page_merge_is_all_or_nothing
    (render : string -> result string) (soup : Soup) (e : exn) :
  page_records render soup = Raise e ->
  forall s,
    snd (extract_part_numbers_and_chroma render
           (find_all_div soup "product-type") soup s) = Raise e /\
    part_numbers_data
      (fst (extract_part_numbers_and_chroma render
              (find_all_div soup "product-type") soup s))
    = part_numbers_data s.
Proof. intros H s. rewrite extract_run, H. now split. Qed.

(** ** Merging the same records again *)

Lemma dict_set_same (k : string) (v : CatalogRecord) (d : dict) :
  wf d -> In (k, v) d -> dict_set k v d = d.
Proof.
  unfold wf, keys. induction d as [|[k0 v0] d IH]; simpl; intros Hnd Hin;
    [tauto|].
  inversion Hnd as [|? ? Hk Hd]; subst.
  destruct (String.eqb_spec k0 k) as [->|N].
  - destruct Hin as [[= ->]|Hin]; trivial.
    destruct Hk. change k with (fst (k, v)). now apply in_map.
  - destruct Hin as [[= E _]|Hin]; [contradiction|]. now rewrite IH.
Qed.

Lemma update_same (other d : dict) :
  wf d -> (forall e, In e other -> In e d) -> update d other = d.
Proof.
  unfold update. induction other as [|[k v] other IH]; intros Hwf Hin;
    simpl; trivial.
  rewrite dict_set_same; trivial.
  - apply IH; trivial. intros e He. apply Hin. now right.
  - apply Hin. now left.
Qed.

Lemma dict_set_In_new (k : string) (v : CatalogRecord) (d : dict) :
  In (k, v) (dict_set k v d).
Proof.
  induction d as [|[k0 v0] d IH]; simpl; [now left|].
  destruct (String.eqb k0 k); simpl; auto.
Qed.

Lemma dict_set_keeps (e : string * CatalogRecord) (k : string)
    (v : CatalogRecord) (d : dict) :
  In e d -> fst e <> k -> In e (dict_set k v d).
Proof.
  induction d as [|[k0 v0] d IH]; simpl; [tauto|].
  intros [<-|H] Hne.
  - simpl in Hne. apply String.eqb_neq in Hne as ->. now left.
  - destruct (String.eqb k0 k); simpl; auto.
Qed.

Lemma update_keeps (e : string * CatalogRecord) (other d : dict) :
  In e d -> ~ In (fst e) (keys other) -> In e (update d other).
Proof.
  unfold update. revert d.
  induction other as [|[k v] other IH]; intros d Hin Hk; simpl; trivial.
  simpl in Hk. apply IH; [|tauto]. apply dict_set_keeps; trivial.
  intros E. apply Hk. now left.
Qed.

Lemma update_In_written (e : string * CatalogRecord) (other d : dict) :
  wf other -> In e other -> In e (update d other).
Proof.
  unfold wf, keys. revert d.
  induction other as [|[k v] other IH]; intros d Hnd Hin; [destruct Hin|].
  inversion Hnd as [|? ? Hk Ho]; subst.
  destruct Hin as [<-|Hin].
  - change (update d ((k, v) :: other))
      with (update (dict_set k v d) other).
    apply update_keeps; [apply dict_set_In_new | exact Hk].
  - now apply (IH (dict_set k v d)).
Qed.

Lemma update_idempotent (other d : dict) :
  wf d -> wf other -> update (update d other) other = update d other.
Proof.
  intros Hd Ho. apply update_same; [now apply update_wf|].
  intros e He. now apply update_In_written.
Qed.

(** X13: a page that is scraped twice in a row changes nothing the
    second time: when the shared dictionary has distinct keys and the
    div loop of the page returns, the dictionary after two runs of
    [extract_part_numbers_and_chroma] is the dictionary after one. *)
Theorem merging_a_page_twice
    (render : string -> result string) (soup : Soup) (temp : dict)
    (s : Store) :
  wf (part_numbers_data s) ->
  page_records render soup = Ok temp ->
  let once := fst (extract_part_numbers_and_chroma render
                     (find_all_div soup "product-type") soup s) in
  let twice := fst (extract_part_numbers_and_chroma render
                      (find_all_div soup "product-type") soup once) in
  part_numbers_data twice = part_numbers_data once.
Proof.
  intros Hwf Hrec. cbv zeta. rewrite !extract_run, Hrec. simpl.
  apply update_idempotent; trivial. now apply page_records_wf in Hrec.
Qed.

(** ** Divs without a product table *)

Lemma find_rev_none {A} (p : A -> bool) (l : list A) :
  forallb (fun x => negb (p x)) l = true -> find p (rev l) = None.
Proof.
  intros H. destruct (find p (rev l)) as [x|] eqn:E; trivial.
  apply find_some in E as [Hin Hp]. apply in_rev in Hin.
  rewrite forallb_forall in H. specialize (H x Hin). now rewrite Hp in H.
Qed.

(** X14: on a page of a known family, a div whose rows can all be read
    and that has no part number row, or no chroma row, is passed over
    without a record and without a log line. *)
Theorem div_without_table_is_silent
    (render : string -> result string) (soup : Soup) (family : string)
    (div : Tag) (temp : dict) (s : Store) :
  camera_family_of soup = Ok (Some family) -> In family known_families ->
  forallb readable_row (trs div) = true ->
  forallb (fun row => negb (is_part_number_row row)) (trs div) = true \/
  forallb (fun row => negb (is_chroma_row row)) (trs div) = true ->
  div_body render soup div temp s = (s, Ok temp).
Proof.
  intros Hfam Hk Hr Hno. rewrite div_body_eq, (scan_rows_last _ Hr).
  apply in_known_families_In in Hk.
  unfold filter_and_store, bind, lift, ret. rewrite Hfam, Hk. simpl.
  destruct Hno as [H|H]; rewrite (find_rev_none _ _ H); simpl; trivial.
  now rewrite andb_false_r.
Qed.

(** ** The sorter as a normal form *)

(** X15: the sorter gives one order to one set of entries: two
    dictionaries with the same entries in different positions are sorted
    to the same list. *)
Theorem sort_ignores_input_order (d d' : dict) :
  wf d -> Permutation d d' ->
  sort_by_family_and_part_number d = sort_by_family_and_part_number d'.
Proof.
  intros Hwf Hp.
  assert (Hwf' : wf d').
  { unfold wf, keys in *. eapply Permutation_NoDup; [|exact Hwf].
    now apply Permutation_map. }
  rewrite !sort_by_family_and_part_number_eq by trivial.
  now apply sorted_of_permutation.
Qed.

(** ** The exceptions of the extractor *)

Lemma list_index_raises {A} (l : list A) (i : nat) (e : exn) :
  list_index l i = Raise e -> e = IndexError "list index out of range".
Proof. unfold list_index. destruct (nth_error l i); congruence. Qed.

Lemma scan_rows_raises (rows : list Row) :
  forall st e, scan_rows rows st = Raise e ->
               e = IndexError "list index out of range".
Proof.
  induction rows as [|row rows IH]; intros st e; simpl; [discriminate|].
  destruct (row_body row st) as [st1|e1] eqn:E; simpl; [apply IH|].
  intros [= <-]. revert E. unfold row_body. destruct st as [pn ch].
  destruct (caption_span row) as [text|]; [|discriminate].
  destruct (PyStr.contains "Part Number" text);
    [|destruct (PyStr.contains "Chroma" text); [|discriminate]];
    destruct (list_index (tds row) 1) eqn:L; simpl; try discriminate;
    intros [= <-]; eapply list_index_raises, L.
Qed.

Lemma camera_family_of_raises (soup : Soup) (e : exn) :
  camera_family_of soup = Raise e -> e = IndexError "list index out of range".
Proof.
  unfold camera_family_of.
  destruct (2 <=? length (pathways soup))%nat; [|discriminate].
  destruct (list_index (pathways soup) 1) as [p|e1] eqn:L; simpl.
  - unfold list_last. destruct (rev (PyStr.split p)); simpl; congruence.
  - intros [= <-]. eapply list_index_raises, L.
Qed.

Section ExtractorExceptions.

Variable render : string -> result string.

Lemma div_body_raises (soup : Soup) (div : Tag) (temp : dict) (s : Store)
    (e : exn) :
  snd (div_body render soup div temp s) = Raise e ->
  (e = IndexError "list index out of range" /\
   (readable_breadcrumb soup = false \/
    exists row, In row (trs div) /\ readable_row row = false)) \/
  (exists msg, render msg = Raise e).
Proof.
  rewrite div_body_eq.
  destruct (scan_rows (trs div) (None, None)) as [st|e1] eqn:E; simpl.
  - unfold filter_and_store, bind, lift, progress_log, ret.
    destruct (camera_family_of soup) as [fam|e1] eqn:F; simpl.
    + destruct (negb (in_known_families fam)); simpl.
      * destruct (render (family_message (fst st))) eqn:R; simpl;
          [discriminate|]. intros [= <-]. eauto.
      * destruct (truthy_opt (fst st) && truthy_opt (snd st)); [|discriminate].
        destruct (camera_type_of (fmt (snd st))); [discriminate|].
        destruct (render (chroma_message (snd st) (fst st))) eqn:R; simpl;
          [discriminate|]. intros [= <-]. eauto.
    + intros [= <-]. left. split; [eapply camera_family_of_raises, F|].
      left. destruct (readable_breadcrumb soup) eqn:Hb; trivial.
      destruct (camera_family_of_returns soup Hb) as [fam Hfam]. congruence.
  - intros [= <-]. left. split; [eapply scan_rows_raises, E|].
    right. destruct (forallb readable_row (trs div)) eqn:Hr.
    + destruct (scan_rows_returns _ Hr (None, None)) as [st Hst]. congruence.
    + now apply forallb_false_witness in Hr.
Qed.

Lemma for_fold_raises (soup : Soup) (divs : list Tag) :
  forall temp s e,
    snd (for_fold divs (div_body render soup) temp s) = Raise e ->
    (e = IndexError "list index out of range" /\
     (readable_breadcrumb soup = false \/
      exists div row,
        In div divs /\ In row (trs div) /\ readable_row row = false)) \/
    (exists msg, render msg = Raise e).
Proof.
  induction divs as [|div divs IH]; intros temp s e; [discriminate|].
  rewrite for_fold_cons.
  pose proof (div_body_raises soup div temp s) as Hd.
  destruct (div_body render soup div temp s) as [s1 [t1|e1]].
  - intros H. destruct (IH _ _ _ H) as [[He [Hb|(d & r & Hd' & Hr & Hrr)]]|Hm];
      eauto 10 using in_cons.
  - intros [= <-].
    destruct (Hd e1 eq_refl) as [[He [Hb|(r & Hr & Hrr)]]|Hm];
      eauto 10 using in_eq.
Qed.

(** X16: [extract_part_numbers_and_chroma] raises only the [IndexError]
    of a list index, and then some labelled row of some div lacks its
    second cell or the second pathway element has no token, or an
    exception with which the console rejects a logged message. *)
Theorem extractor_exceptions
    (product_divs : list Tag) (soup : Soup) (s : Store) (e : exn) :
  snd (extract_part_numbers_and_chroma render product_divs soup s) = Raise e ->
  (e = IndexError "list index out of range" /\
   (readable_breadcrumb soup = false \/
    exists div row,
      In div product_divs /\ In row (trs div) /\ readable_row row = false)) \/
  (exists msg, render msg = Raise e).
Proof.
  unfold extract_part_numbers_and_chroma, collect, bind.
  pose proof (for_fold_raises soup product_divs [] s) as Hf.
  destruct (for_fold product_divs (div_body render soup) [] s) as [s1 [t1|e1]];
    simpl; [discriminate|].
  intros [= <-]. now apply Hf.
Qed.

End ExtractorExceptions.

(* ================================================================== *)
(** * The theorems at sample inputs *)

Lemma crawl_output_valid_witness :
  fetch_part_numbers sample_web sample_urljoin plain_render in_order "/products"
  = (sample_console, Ok sample_result) /\
  Forall valid_entry (sort_by_family_and_part_number sample_result).
Proof.
  assert (H : fetch_part_numbers sample_web sample_urljoin plain_render
                in_order "/products"
              = (sample_console, Ok sample_result)) by reflexivity.
  split; [exact H|].
  exact (proj2 (proj2 (crawl_output_valid sample_web sample_urljoin
                         plain_render in_order "/products" sample_console
                         sample_result H))).
Defined.



Lemma unknown_family_emits_no_record_witness :
  camera_family_of (camera_page "Sensors" "MQ013CG-E2" "Color")
  = Ok (Some "Sensors") /\
  ~ In "Sensors" known_families /\
  page_records plain_render (camera_page "Sensors" "MQ013CG-E2" "Color")
  = Ok [] /\
  forall s,
    part_numbers_data
      (fst (extract_part_numbers_and_chroma plain_render
              [product_div "MQ013CG-E2" "Color"]
              (camera_page "Sensors" "MQ013CG-E2" "Color") s))
    = part_numbers_data s.
Proof.
  assert (H1 : camera_family_of (camera_page "Sensors" "MQ013CG-E2" "Color")
               = Ok (Some "Sensors")) by reflexivity.
  assert (H2 : ~ In "Sensors" known_families) by (simpl; intuition discriminate).
  assert (H3 : forall f, Some "Sensors" = Some f -> ~ In f known_families)
    by (intros f [= <-]; exact H2).
  split; [exact H1|]. split; [exact H2|]. split; [reflexivity|].
  exact (proj1 (proj2 (proj2 (unknown_family_emits_no_record plain_render
                                _ _ H1 H3)))
           [product_div "MQ013CG-E2" "Color"]).
Defined.

Lemma root_failure_is_fatal_witness :
  dead_web "/products" = Raise (RequestException "Connection refused") /\
  fetch_part_numbers dead_web sample_urljoin plain_render in_order "/products"
  = ([], Raise (RequestException "Connection refused")).
Proof.
  assert (H : dead_web "/products"
              = Raise (RequestException "Connection refused")) by reflexivity.
  split; [exact H|].
  exact (proj2 (root_failure_is_fatal dead_web sample_urljoin plain_render
                  in_order "/products" _ (or_introl H))).
Defined.





Lemma sort_by_family_and_part_number_spec_witness :
  wf sample_catalog /\
  Permutation sample_catalog (sort_by_family_and_part_number sample_catalog) /\
  StronglySorted family_part_le (sort_by_family_and_part_number sample_catalog) /\
  keys (sort_by_family_and_part_number sample_catalog)
  = ["CB120RG-CM"; "CB200MG-CM"; "MC023CG-SY"].
Proof.
  assert (H : wf sample_catalog)
    by (repeat constructor; simpl; intuition discriminate).
  pose proof (sort_by_family_and_part_number_spec sample_catalog H) as (Hp & Hs & _).
  split; [exact H|]. split; [exact Hp|]. split; [exact Hs | reflexivity].
Defined.

Lemma sort_by_family_and_part_number_idempotent_witness :
  wf sample_catalog /\
  sort_by_family_and_part_number (sort_by_family_and_part_number sample_catalog)
  = sort_by_family_and_part_number sample_catalog.
Proof.
  assert (H : wf sample_catalog)
    by (repeat constructor; simpl; intuition discriminate).
  split; [exact H|].
  exact (sort_by_family_and_part_number_idempotent sample_catalog H).
Defined.

Lemma scan_rows_last_row_wins_witness :
  forallb readable_row
    [param_row "Part Number" "OLD"; param_row "Chroma" "Color";
     mkRow None ["Sensor"; "CMOS"]; param_row "Part Number" " MQ013CG-E2 "]
  = true /\
  scan_rows
    [param_row "Part Number" "OLD"; param_row "Chroma" "Color";
     mkRow None ["Sensor"; "CMOS"]; param_row "Part Number" " MQ013CG-E2 "]
    (None, None)
  = Ok (Some "MQ013CG-E2", Some "Color").
Proof.
  assert (H : forallb readable_row
                [param_row "Part Number" "OLD"; param_row "Chroma" "Color";
                 mkRow None ["Sensor"; "CMOS"];
                 param_row "Part Number" " MQ013CG-E2 "] = true)
    by reflexivity.
  split; [exact H|]. exact (proj1 (scan_rows_last_row_wins _ H)).
Defined.

Lemma camera_family_is_last_token_witness :
  nth_error (pathways (camera_page "USB3 cameras xiQ  " "MQ013CG-E2" "Color")) 1
  = Some "USB3 cameras xiQ  " /\
  camera_family_of (camera_page "USB3 cameras xiQ  " "MQ013CG-E2" "Color")
  = Ok (Some "xiQ").
Proof.
  assert (H1 : nth_error (pathways (camera_page "USB3 cameras xiQ  "
                                      "MQ013CG-E2" "Color")) 1
               = Some "USB3 cameras xiQ  ") by reflexivity.
  assert (H2 : no_space "xiQ" = true) by reflexivity.
  assert (H3 : "xiQ" <> "") by discriminate.
  assert (H4 : all_space "  " = true) by reflexivity.
  assert (H5 : exists a c, PyStr.is_space c = true /\
                 "USB3 cameras xiQ  " = (a ++ String c ("xiQ" ++ "  "))%string)
    by (exists "USB3 cameras", " "%char; split; reflexivity).
  split; [exact H1|].
  exact (camera_family_is_last_token _ _ "xiQ" "  " H1 H2 H3 H4 (or_intror H5)).
Defined.

Lemma sort_ignores_input_order_witness :
  wf sample_catalog /\ Permutation sample_catalog (rev sample_catalog) /\
  sort_by_family_and_part_number sample_catalog
  = sort_by_family_and_part_number (rev sample_catalog).
Proof.
  assert (H1 : wf sample_catalog)
    by (repeat constructor; simpl; intuition discriminate).
  assert (H2 : Permutation sample_catalog (rev sample_catalog))
    by apply Permutation_rev.
  split; [exact H1|]. split; [exact H2|].
  exact (sort_ignores_input_order _ _ H1 H2).
Defined.

Lemma crawl_records_follow_schema_witness :
  fetch_part_numbers sample_web sample_urljoin plain_render in_order "/products"
  = (sample_console, Ok sample_result) /\
  Forall schema_entry sample_result.
Proof.
  assert (H : fetch_part_numbers sample_web sample_urljoin plain_render
                in_order "/products"
              = (sample_console, Ok sample_result)) by reflexivity.
  split; [exact H|].
  exact (proj1 (crawl_records_follow_schema sample_web sample_urljoin
                  plain_render in_order "/products" sample_console
                  sample_result H)).
Defined.

Lemma crawl_part_numbers_are_stripped_witness :
  fetch_part_numbers sample_web sample_urljoin plain_render in_order "/products"
  = (sample_console, Ok sample_result) /\
  Forall stripped_entry sample_result.
Proof.
  assert (H : fetch_part_numbers sample_web sample_urljoin plain_render
                in_order "/products"
              = (sample_console, Ok sample_result)) by reflexivity.
  split; [exact H|].
  exact (proj1 (crawl_part_numbers_are_stripped sample_web sample_urljoin
                  plain_render in_order "/products" sample_console
                  sample_result H)).
Defined.

Lemma scrap_page_outcome_witness :
  fetch_main_categories dead_web "/products"
  = Raise (RequestException "Connection refused") /\
  snd (scrap_page dead_web sample_urljoin plain_render in_order "/products")
  = Raise (RequestException "Connection refused").
Proof.
  assert (H : fetch_main_categories dead_web "/products"
              = Raise (RequestException "Connection refused")) by reflexivity.
  split; [exact H|].
  exact (proj2 (proj1 (scrap_page_outcome dead_web sample_urljoin plain_render
                         in_order "/products") _) H).
Defined.

Lemma crawl_entries_come_from_pages_witness :
  complete in_order /\
  fetch_part_numbers sample_web sample_urljoin plain_render in_order "/products"
  = (sample_console, Ok sample_result) /\
  In ("MC023CG-SY", mkRecord "rgb" "xiC" 0 0) sample_result /\
  exists main_category_links link subcategory_links product_link url soup temp,
    fetch_main_categories sample_web "/products" = Ok main_category_links /\
    In link main_category_links /\
    fetch_subcategories sample_web sample_urljoin "/products" link
    = Ok subcategory_links /\
    In product_link subcategory_links /\
    sample_urljoin "/products" product_link = Ok url /\
    worker_soup sample_web sample_urljoin "/products" url = Ok soup /\
    page_records plain_render soup = Ok temp /\
    In ("MC023CG-SY", mkRecord "rgb" "xiC" 0 0) temp.
Proof.
  assert (H1 : complete in_order)
    by (repeat split; intros; apply Permutation_refl).
  assert (H2 : fetch_part_numbers sample_web sample_urljoin plain_render
                 in_order "/products"
               = (sample_console, Ok sample_result)) by reflexivity.
  assert (H3 : In ("MC023CG-SY", mkRecord "rgb" "xiC" 0 0) sample_result)
    by (simpl; tauto).
  split; [exact H1|]. split; [exact H2|]. split; [exact H3|].
  exact (crawl_entries_come_from_pages sample_web sample_urljoin plain_render
           in_order "/products" sample_console sample_result H1 H2 _ H3).
Defined.

Lemma merge_replaces_by_part_number_witness :
  page_records plain_render
    (camera_page "USB3 cameras xiQ" "MQ013CG-E2" "Color")
  = Ok [("MQ013CG-E2", mkRecord "rgb" "xiQ" 0 0)] /\
  dict_get "MQ013CG-E2"
    (part_numbers_data
       (fst (extract_part_numbers_and_chroma plain_render
               (find_all_div
                  (camera_page "USB3 cameras xiQ" "MQ013CG-E2" "Color")
                  "product-type")
               (camera_page "USB3 cameras xiQ" "MQ013CG-E2" "Color")
               (mkStore [("MQ013CG-E2", mkRecord "gray" "xiQ" 0 0)] []))))
  = Some (mkRecord "rgb" "xiQ" 0 0).
Proof.
  assert (H : page_records plain_render
                (camera_page "USB3 cameras xiQ" "MQ013CG-E2" "Color")
              = Ok [("MQ013CG-E2", mkRecord "rgb" "xiQ" 0 0)]) by reflexivity.
  split; [exact H|].
  exact (merge_replaces_by_part_number plain_render _ _ H
           (mkStore [("MQ013CG-E2", mkRecord "gray" "xiQ" 0 0)] [])
           "MQ013CG-E2").
Defined.

Lemma crawl_last_writer_wins_witness :
  fetch_main_categories sample_web "/products" = Ok ["/usb3"; "/pcie"] /\
  exists out d,
    fetch_part_numbers sample_web sample_urljoin plain_render in_order
                       "/products"
    = (out, Ok d) /\
    dict_get "MQ013CG-E2" d = Some (mkRecord "rgb" "xiQ" 0 0).
Proof.
  assert (H : fetch_main_categories sample_web "/products"
              = Ok ["/usb3"; "/pcie"]) by reflexivity.
  split; [exact H|].
  destruct (crawl_last_writer_wins sample_web sample_urljoin plain_render
              in_order "/products" _ H) as (out & d & Hrun & Hget).
  exists out, d. split; [exact Hrun|]. rewrite Hget. reflexivity.
Defined.

Lemma scrap_page_independent_of_schedule_witness :
  complete in_order /\ complete reversed /\
  fetch_main_categories sample_web "/products" = Ok ["/usb3"; "/pcie"] /\
  wf (crawl_writes sample_web sample_urljoin plain_render in_order "/products"
                   ["/usb3"; "/pcie"]) /\
  snd (scrap_page sample_web sample_urljoin plain_render in_order "/products")
  = snd (scrap_page sample_web sample_urljoin plain_render reversed "/products").
Proof.
  assert (H1 : complete in_order)
    by (repeat split; intros; apply Permutation_refl).
  assert (H2 : complete reversed)
    by (repeat split; intros; apply Permutation_rev).
  assert (H3 : fetch_main_categories sample_web "/products"
               = Ok ["/usb3"; "/pcie"]) by reflexivity.
  assert (H4 : wf (crawl_writes sample_web sample_urljoin plain_render in_order
                                "/products" ["/usb3"; "/pcie"]))
    by (unfold wf; vm_compute; repeat constructor; simpl; intuition discriminate).
  split; [exact H1|]. split; [exact H2|]. split; [exact H3|].
  split; [exact H4|].
  exact (scrap_page_independent_of_schedule sample_web sample_urljoin
           plain_render in_order reversed "/products" _ H1 H2 H3 H4).
Defined.

Lemma page_merge_is_all_or_nothing_witness :
  page_records plain_render damaged_page
  = Raise (IndexError "list index out of range") /\
  part_numbers_data
    (fst (extract_part_numbers_and_chroma plain_render
            (find_all_div damaged_page "product-type") damaged_page
            (mkStore sample_catalog [])))
  = sample_catalog.
Proof.
  assert (H : page_records plain_render damaged_page
              = Raise (IndexError "list index out of range")) by reflexivity.
  split; [exact H|].
  exact (proj2 (page_merge_is_all_or_nothing plain_render damaged_page _ H
                  (mkStore sample_catalog []))).
Defined.

Lemma merging_a_page_twice_witness :
  wf (part_numbers_data (mkStore sample_catalog [])) /\
  page_records plain_render
    (camera_page "USB3 cameras xiQ" "MQ013CG-E2" "Color")
  = Ok [("MQ013CG-E2", mkRecord "rgb" "xiQ" 0 0)] /\
  part_numbers_data
    (fst (extract_part_numbers_and_chroma plain_render
            (find_all_div (camera_page "USB3 cameras xiQ" "MQ013CG-E2" "Color")
                          "product-type")
            (camera_page "USB3 cameras xiQ" "MQ013CG-E2" "Color")
            (fst (extract_part_numbers_and_chroma plain_render
                    (find_all_div
                       (camera_page "USB3 cameras xiQ" "MQ013CG-E2" "Color")
                       "product-type")
                    (camera_page "USB3 cameras xiQ" "MQ013CG-E2" "Color")
                    (mkStore sample_catalog [])))))
  = part_numbers_data
      (fst (extract_part_numbers_and_chroma plain_render
              (find_all_div (camera_page "USB3 cameras xiQ" "MQ013CG-E2" "Color")
                            "product-type")
              (camera_page "USB3 cameras xiQ" "MQ013CG-E2" "Color")
              (mkStore sample_catalog []))).
Proof.
  assert (H1 : wf (part_numbers_data (mkStore sample_catalog [])))
    by (repeat constructor; simpl; intuition discriminate).
  assert (H2 : page_records plain_render
                 (camera_page "USB3 cameras xiQ" "MQ013CG-E2" "Color")
               = Ok [("MQ013CG-E2", mkRecord "rgb" "xiQ" 0 0)]) by reflexivity.
  split; [exact H1|]. split; [exact H2|].
  exact (merging_a_page_twice plain_render _ _ (mkStore sample_catalog [])
           H1 H2).
Defined.

Lemma div_without_table_is_silent_witness :
  camera_family_of (camera_page "USB3 cameras xiQ" "MQ013CG-E2" "Color")
  = Ok (Some "xiQ") /\
  In "xiQ" known_families /\
  div_body plain_render (camera_page "USB3 cameras xiQ" "MQ013CG-E2" "Color")
           (mkTag [] [mkRow None ["Sensor"; "CMOS"]; param_row "Chroma" "Color"])
           sample_catalog empty_store
  = (empty_store, Ok sample_catalog).
Proof.
  assert (H1 : camera_family_of
                 (camera_page "USB3 cameras xiQ" "MQ013CG-E2" "Color")
               = Ok (Some "xiQ")) by reflexivity.
  assert (H2 : In "xiQ" known_families) by (simpl; tauto).
  assert (H3 : forallb readable_row
                 [mkRow None ["Sensor"; "CMOS"]; param_row "Chroma" "Color"]
               = true) by reflexivity.
  assert (H4 : forallb (fun row => negb (is_part_number_row row))
                 [mkRow None ["Sensor"; "CMOS"]; param_row "Chroma" "Color"]
               = true) by reflexivity.
  split; [exact H1|]. split; [exact H2|].
  exact (div_without_table_is_silent plain_render _ "xiQ"
           (mkTag [] [mkRow None ["Sensor"; "CMOS"]; param_row "Chroma" "Color"])
           sample_catalog empty_store H1 H2 H3 (or_introl H4)).
Defined.

Lemma extractor_exceptions_witness :
  snd (extract_part_numbers_and_chroma strict_render
         [product_div "A[/]" "Color"]
         (product_page ["Home"] [product_div "A[/]" "Color"]) empty_store)
  = Raise (MarkupError "closing tag doesn't match any open tag") /\
  ((MarkupError "closing tag doesn't match any open tag"
    = IndexError "list index out of range" /\
    (readable_breadcrumb (product_page ["Home"] [product_div "A[/]" "Color"])
     = false \/
     exists div row,
       In div [product_div "A[/]" "Color"] /\ In row (trs div) /\
       readable_row row = false)) \/
   (exists msg,
       strict_render msg
       = Raise (MarkupError "closing tag doesn't match any open tag"))).
Proof.
  assert (H : snd (extract_part_numbers_and_chroma strict_render
                     [product_div "A[/]" "Color"]
                     (product_page ["Home"] [product_div "A[/]" "Color"])
                     empty_store)
              = Raise (MarkupError "closing tag doesn't match any open tag"))
    by reflexivity.
  split; [exact H|].
  exact (extractor_exceptions strict_render _ _ _ _ H).
Defined.
